(** * gcli2api: the plugin connection routes ([src/panel/plugin.py])

    A shallow embedding of the two authenticated handlers of the plugin
    router, [update_token] (credential intake) and [check_tokens]
    (refresh-state query), together with the Python values they
    manipulate, and the properties of the credential synchronisation
    engine proved on that embedding.

    Conventions of the embedding.
    - A decoded JSON document is a [value]; a Python [dict] is an
      association list in insertion order whose keys are pairwise distinct.
    - Strings are UTF-8 byte strings.  Every string operation of the
      handlers works on ASCII patterns, for which bytes and code points
      agree.
    - A handler is a function of the request, the configured secret, the
      clock and the store; it returns an [outcome] (a response or the
      exception that leaves the handler) and the store afterwards.
    - [async]/[await] is sequential and is not represented; log lines are
      not represented. *)

From Stdlib Require Import ZArith List String Ascii Bool Lia.
From Stdlib Require Import SpecFloat DecimalString DecimalZ.
Import ListNotations.

Local Open Scope string_scope.
Local Open Scope Z_scope.

Set Warnings "-register-all".

(** ** Python values *)

Module Py.

(** What [json.loads] produces, which is also what the store returns. *)
Inductive value : Type :=
| VNone
| VBool (b : bool)
| VInt (n : Z)
| VFloat (x : spec_float)
| VStr (s : string)
| VList (items : list value)
| VDict (fields : list (string * value)).

(** Truth value testing: [bool(v)], [if v], [not v]. *)
Definition truthy (v : value) : bool :=
  match v with
  | VNone => false
  | VBool b => b
  | VInt n => negb (n =? 0)
  | VFloat (S754_zero _) => false
  | VFloat _ => true
  | VStr s => negb (s =? "")%string
  | VList items => match items with [] => false | _ => true end
  | VDict fields => match fields with [] => false | _ => true end
  end.

(** Numbers compare by mathematical value across [bool], [int] and
    [float]; a finite number is [m * 2 ^ e]. *)
Inductive number : Type :=
| Finite (m e : Z)
| Infinite (negative : bool)
| NotANumber.

Definition number_of_float (x : spec_float) : number :=
  match x with
  | S754_zero _ => Finite 0 0
  | S754_infinity s => Infinite s
  | S754_nan => NotANumber
  | S754_finite s m e => Finite (if s then Z.neg m else Z.pos m) e
  end.

Definition as_number (v : value) : option number :=
  match v with
  | VBool b => Some (Finite (if b then 1 else 0) 0)
  | VInt n => Some (Finite n 0)
  | VFloat x => Some (number_of_float x)
  | _ => None
  end.

Definition number_eqb (a b : number) : bool :=
  match a, b with
  | Finite m1 e1, Finite m2 e2 =>
      let e := Z.min e1 e2 in
      (m1 * 2 ^ (e1 - e) =? m2 * 2 ^ (e2 - e))
  | Infinite s1, Infinite s2 => Bool.eqb s1 s2
  | _, _ => false
  end.

(** [dict.get] on the association list. *)
Fixpoint lookup (k : string) (d : list (string * value)) : option value :=
  match d with
  | [] => None
  | (k', v) :: d' => if (k' =? k)%string then Some v else lookup k d'
  end.

(** [a == b]. *)
Fixpoint eqb (a b : value) {struct a} : bool :=
  match a, b with
  | VNone, VNone => true
  | VStr s, VStr t => (s =? t)%string
  | VList xs, VList ys =>
      (fix all2 (xs ys : list value) {struct xs} : bool :=
         match xs, ys with
         | [], [] => true
         | x :: xs', y :: ys' => eqb x y && all2 xs' ys'
         | _, _ => false
         end) xs ys
  | VDict d, VDict d' =>
      (Nat.eqb (List.length d) (List.length d')) &&
      (fix sub (d : list (string * value)) {struct d} : bool :=
         match d with
         | [] => true
         | (k, v) :: rest =>
             match lookup k d' with
             | Some w => eqb v w
             | None => false
             end && sub rest
         end) d
  | (VBool _ | VInt _ | VFloat _), (VBool _ | VInt _ | VFloat _) =>
      match as_number a, as_number b with
      | Some x, Some y => number_eqb x y
      | _, _ => false
      end
  | _, _ => false
  end.

End Py.

Import Py.

(** ** Exceptions *)

(** The exceptions that occur in the handlers.  [HTTPException] is the
    framework's structured error; the other ones are Python's own and
    reach the client as an unhandled server error when nothing catches
    them.  [StoreError] stands for whatever a store call raises. *)
Inductive exn : Type :=
| HTTPException (status_code : Z) (detail : string)
| AttributeError
| TypeError
| ValueError
| StoreError (what : string).

Inductive outcome (A : Type) : Type :=
| Return (a : A)
| Raise (e : exn).

Arguments Return {A} a.
Arguments Raise {A} e.

Definition is_http (code : Z) {A} (o : outcome A) : Prop :=
  exists detail, o = Raise (HTTPException code detail).

(** ** String methods *)

(** [s.startswith(p)] is [String.prefix p s]; [s[n:]] is [drop n s]. *)
Fixpoint drop (n : nat) (s : string) : string :=
  match n, s with
  | O, _ => s
  | S n', String _ s' => drop n' s'
  | S _, EmptyString => EmptyString
  end.

(** [s.endswith(suffix)]: some tail of [s] is [suffix]. *)
Fixpoint endswith (s suffix : string) : bool :=
  (s =? suffix)%string ||
  match s with
  | EmptyString => false
  | String _ s' => endswith s' suffix
  end.

(** [s.replace(old, new)] for a one-character [old]. *)
Fixpoint replace (s : string) (old : ascii) (new : string) : string :=
  match s with
  | EmptyString => EmptyString
  | String c s' =>
      if Ascii.eqb c old then new ++ replace s' old new
      else String c (replace s' old new)
  end.

(** [str(n)] for an [int]. *)
Definition str_of_int (n : Z) : string :=
  NilEmpty.string_of_int (Z.to_int n).

(** ** Methods looked up on a decoded value

    Only a [dict] has [get] and [items], only a [str] has [endswith] and
    [replace]; on any other value the attribute lookup raises. *)

Definition dict_get (d : list (string * value)) (key : string) (default : value) : value :=
  match lookup key d with
  | Some x => x
  | None => default
  end.

Definition py_get (v : value) (key : string) (default : value) : outcome value :=
  match v with
  | VDict d => Return (dict_get d key default)
  | _ => Raise AttributeError
  end.

Definition py_items (v : value) : outcome (list (string * value)) :=
  match v with
  | VDict d => Return d
  | _ => Raise AttributeError
  end.

Definition py_endswith (v : value) (suffix : string) : outcome bool :=
  match v with
  | VStr s => Return (endswith s suffix)
  | _ => Raise AttributeError
  end.

Definition py_replace (v : value) (old : ascii) (new : string) : outcome string :=
  match v with
  | VStr s => Return (replace s old new)
  | _ => Raise AttributeError
  end.

(** ** Library functions

    [datetime.fromisoformat] and the text of [str()] on a float, a list
    or a dict belong to the Python library, not to this repository: the
    handlers are stated for any behaviour of them. *)

(** A [datetime]: microseconds on the time line (UTC for an aware value,
    wall clock for a naive one) and whether it carries an offset. *)
Record datetime : Type := {
  microseconds : Z;
  aware : bool
}.

Class Library : Type := {
  (** [None] when [fromisoformat] raises [ValueError]. *)
  fromisoformat : string -> option datetime;
  str_of_compound : value -> string
}.

(** [str(v)], which is what an f-string field formats with. *)
Definition py_str `{Library} (v : value) : string :=
  match v with
  | VNone => "None"
  | VBool true => "True"
  | VBool false => "False"
  | VInt n => str_of_int n
  | VStr s => s
  | _ => str_of_compound v
  end.

(** [(exp_dt - now).total_seconds() < 300], with [now] aware.  The
    difference of two datetimes is exact in microseconds and the float
    quotient by [10 ** 6] is below [300.0] exactly when the microsecond
    count is below [300 * 10 ** 6]. *)
Definition expires_within_300s (exp_dt : datetime) (now : Z) : outcome bool :=
  if aware exp_dt then Return (microseconds exp_dt - now <? 300 * 1000000)
  else Raise TypeError.

(** ** The store

    [src/storage_adapter.py] and [src/credential_manager.py] are the
    handlers' collaborators.  Reads do not change the store; every call
    may raise. *)
Class Store (S : Type) : Type := {
  list_credentials : string -> S -> outcome (list string);
  get_credential : string -> string -> S -> outcome value;
  get_credential_state : string -> string -> S -> outcome value;
  add_credential : string -> value -> S -> outcome unit * S;
  add_antigravity_credential : string -> value -> S -> outcome unit * S
}.

(** ** Requests and responses *)

Record Request : Type := {
  (** [await request.json()], [None] when it raises. *)
  json : option value;
  (** The [authorization] header, when sent. *)
  authorization : option string
}.

Definition header_authorization (request : Request) : string :=
  match authorization request with Some a => a | None => "" end.

(** [JSONResponse(content=...)] renders its content when it is built,
    with [json.dumps(content, allow_nan=False)]: a float that is NaN or
    an infinity, at any depth, raises [ValueError]; every other decoded
    value is written out. *)
Fixpoint renderable (v : value) : bool :=
  match v with
  | VFloat S754_nan => false
  | VFloat (S754_infinity _) => false
  | VList items =>
      (fix all (items : list value) : bool :=
         match items with
         | [] => true
         | x :: rest => renderable x && all rest
         end) items
  | VDict fields =>
      (fix all (fields : list (string * value)) : bool :=
         match fields with
         | [] => true
         | (_, x) :: rest => renderable x && all rest
         end) fields
  | _ => true
  end.

Definition render (content : value) : outcome unit :=
  if renderable content then Return tt else Raise ValueError.

(** The content of the response of [update_token], as a record. *)
Record UpdateResponse : Type := {
  upd_success : bool;
  upd_message : string;
  upd_filename : string;
  upd_action : string;
  upd_id : string
}.

Record TokenStatus : Type := {
  tok_filename : string;
  tok_email : value;
  tok_is_active : bool;
  tok_needs_refresh : bool;
  tok_error_codes : value
}.

Record StatusResponse : Type := {
  st_enabled : bool;
  st_has_token : bool
}.

Record CheckResponse : Type := {
  chk_success : bool;
  chk_tokens : list TokenStatus;
  chk_needs_refresh_emails : list value
}.

(** The records as the dicts the handlers build (lines 165-171, 229-235
    and 239-245). *)
Definition update_content (resp : UpdateResponse) : value :=
  VDict [("success", VBool (upd_success resp));
         ("message", VStr (upd_message resp));
         ("filename", VStr (upd_filename resp));
         ("action", VStr (upd_action resp));
         ("id", VStr (upd_id resp))].

Definition token_content (t : TokenStatus) : value :=
  VDict [("filename", VStr (tok_filename t));
         ("email", tok_email t);
         ("is_active", VBool (tok_is_active t));
         ("needs_refresh", VBool (tok_needs_refresh t));
         ("error_codes", tok_error_codes t)].

Definition check_content (resp : CheckResponse) : value :=
  VDict [("success", VBool (chk_success resp));
         ("tokens", VList (map token_content (chk_tokens resp)));
         ("needs_refresh_emails", VList (chk_needs_refresh_emails resp))].

(** ** Sequencing

    [outcome] sequences the steps that do not touch the store; [M S]
    threads the store through the steps that do and keeps it when an
    exception is raised. *)

Definition bind {A B} (o : outcome A) (k : A -> outcome B) : outcome B :=
  match o with
  | Return a => k a
  | Raise e => Raise e
  end.

(** [try: body  except Exception: handler]. *)
Definition try_except {A} (body : outcome A) (handler : outcome A) : outcome A :=
  match body with
  | Return a => Return a
  | Raise _ => handler
  end.

Definition M (S A : Type) : Type := S -> outcome A * S.

Definition bindM {S A B} (m : M S A) (k : A -> M S B) : M S B :=
  fun s =>
    match m s with
    | (Return a, s') => k a s'
    | (Raise e, s') => (Raise e, s')
    end.

Definition retM {S A} (a : A) : M S A := fun s => (Return a, s).

(** A step that does not touch the store. *)
Definition pure {S A} (o : outcome A) : M S A := fun s => (o, s).

(** A read of the store. *)
Definition read {S A} (f : S -> outcome A) : M S A := fun s => (f s, s).

Declare Scope outcome_scope.
Delimit Scope outcome_scope with outcome.
Declare Scope store_scope.
Delimit Scope store_scope with store.

Notation "x <- c1 ;; c2" := (bind c1 (fun x => c2))
  (at level 61, c1 at next level, right associativity) : outcome_scope.
Notation "' pat <- c1 ;; c2" := (bind c1 (fun x => match x with pat => c2 end))
  (at level 61, pat pattern, c1 at next level, right associativity) : outcome_scope.
Notation "x <- c1 ;; c2" := (bindM c1 (fun x => c2))
  (at level 61, c1 at next level, right associativity) : store_scope.
Notation "' pat <- c1 ;; c2" := (bindM c1 (fun x => match x with pat => c2 end))
  (at level 61, pat pattern, c1 at next level, right associativity) : store_scope.

(** ** The handlers *)

Section Handlers.

Context {S : Type} {store : Store S} {library : Library}.

(** The secret a request presents (lines 94-97 and 190-193): the body's
    [token] field, overridden by the text after ["Bearer "] of the
    authorization header when the header starts with it. *)
Definition presented_token (request : Request) (body : value) : outcome value :=
  (req_token <- py_get body "token" (VStr "") ;;
   let auth := header_authorization request in
   Return (if prefix "Bearer " auth then VStr (drop 7 auth) else req_token))%outcome.

(** [not req_token or req_token != plugin_token]. *)
Definition token_rejected (req_token : value) (plugin_token : string) : bool :=
  negb (truthy req_token) || negb (Py.eqb req_token (VStr plugin_token)).

(** [mode = body.get("mode", "geminicli")], replaced by ["geminicli"]
    when it is not one of the two modes; the result is one of the two
    strings. *)
Definition resolve_mode (body : value) : outcome string :=
  (mode <- py_get body "mode" (VStr "geminicli") ;;
   Return (if Py.eqb mode (VStr "geminicli") then "geminicli"
           else if Py.eqb mode (VStr "antigravity") then "antigravity"
           else "geminicli"))%outcome.

(** [_verify_plugin_token] (lines 29-49), the helper the two handlers
    restate inline: here the configured secret is looked at first, and
    the body is decoded and read inside a [try] only when the header
    carries no bearer secret. *)
Definition _verify_plugin_token (plugin_token : string) (request : Request) : outcome value :=
  (if (plugin_token =? "")%string
   then Raise (HTTPException 503 "插件连接未配置 connection_token")
   else
     let auth := header_authorization request in
     req_token <- (if prefix "Bearer " auth
                   then Return (VStr (drop 7 auth))
                   else
                     try_except
                       (body <- match json request with
                                | Some b => Return b
                                | None => Raise ValueError
                                end ;;
                        py_get body "token" (VStr ""))
                       (Return (VStr ""))) ;;
     if token_rejected req_token plugin_token
     then Raise (HTTPException 401 "无效的连接 Token")
     else Return req_token)%outcome.

(** *** [update_token] *)

(** Lines 84-100: decode the body, then check the secret.  Returns the
    body. *)
Definition intake_guard (plugin_token : string) (request : Request) : outcome value :=
  (body <- match json request with
           | Some b => Return b
           | None => Raise (HTTPException 400 "无效的 JSON")
           end ;;
   if (plugin_token =? "")%string
   then Raise (HTTPException 503 "插件连接未配置 connection_token")
   else
     req_token <- presented_token request body ;;
     if token_rejected req_token plugin_token
     then Raise (HTTPException 401 "无效的连接 Token")
     else Return body)%outcome.

Definition cred_keys : list string :=
  ["client_id"; "client_secret"; "refresh_token"; "token";
   "access_token"; "scopes"; "token_uri"; "project_id"; "expiry"].

Definition in_keys (k : string) (keys : list string) : bool :=
  existsb (String.eqb k) keys.

(** Lines 103-108: the nested [credential], or the recognised non-falsy
    fields of the body when there is none. *)
Definition extract_credential (body : value) : outcome value :=
  (credential <- py_get body "credential" VNone ;;
   if negb (truthy credential)
   then
     items <- py_items body ;;
     Return (VDict (filter (fun kv => in_keys (fst kv) cred_keys && truthy (snd kv)) items))
   else Return credential)%outcome.

(** Lines 110-120. *)
Definition validate_credential (credential : value) : outcome unit :=
  (if negb (truthy credential)
   then Raise (HTTPException 400 "缺少凭证数据")
   else
     refresh_token <- py_get credential "refresh_token" VNone ;;
     let has_refresh := truthy refresh_token in
     client_id <- py_get credential "client_id" VNone ;;
     let has_client := truthy client_id in
     if negb has_refresh || negb has_client
     then Raise (HTTPException 400 "凭证需要包含 client_id 和 refresh_token")
     else Return tt)%outcome.

(** Lines 127-135, with [ts = int(time.time())]. *)
Definition resolve_filename (ts : Z) (body credential : value) : outcome string :=
  (filename <- py_get body "filename" (VStr "") ;;
   filename <- (if negb (truthy filename)
                then
                  project_id <- py_get credential "project_id" (VStr "plugin") ;;
                  name <- py_get body "name" (VStr "") ;;
                  let prefix := if truthy name then py_str name ++ "-" else "" in
                  Return (VStr (prefix ++ py_str project_id ++ "-" ++ str_of_int ts ++ ".json"))
                else Return filename) ;;
   has_suffix <- py_endswith filename ".json" ;;
   match filename with
   | VStr name => Return (if negb has_suffix then name ++ ".json" else name)
   | _ => Raise AttributeError
   end)%outcome.

(** Lines 102-135: candidate credential, mode and filename. *)
Definition normalize (ts : Z) (body : value) : outcome (value * string * string) :=
  (credential <- extract_credential body ;;
   _ <- validate_credential credential ;;
   mode <- resolve_mode body ;;
   filename <- resolve_filename ts body credential ;;
   Return (credential, mode, filename))%outcome.

(** The test of line 147 on one listed filename; an exception of the
    read or of the attribute lookup is swallowed (line 153). *)
Definition same_project (mode : string) (project_id : value) (s : S) (ef : string) : bool :=
  match
    (existing_data <- get_credential ef mode s ;;
     if truthy existing_data
     then
       stored <- py_get existing_data "project_id" VNone ;;
       Return (Py.eqb stored project_id)
     else Return false)%outcome
  with
  | Return b => b
  | Raise _ => false
  end.

(** Lines 144-154: the first listed filename that passes the test. *)
Fixpoint scan_existing (mode : string) (project_id : value) (s : S)
  (existing_files : list string) : option string :=
  match existing_files with
  | [] => None
  | ef :: rest =>
      if same_project mode project_id s ef then Some ef
      else scan_existing mode project_id s rest
  end.

(** Lines 138-154: final filename and [updated_existing]. *)
Definition reconcile (mode : string) (credential : value) (filename : string)
  : M S (string * bool) :=
  (existing_files <- read (list_credentials mode) ;;
   project_id <- pure (py_get credential "project_id" (VStr "")) ;;
   if truthy project_id
   then
     found <- read (fun s => Return (scan_existing mode project_id s existing_files)) ;;
     match found with
     | Some ef => retM (ef, true)
     | None => retM (filename, false)
     end
   else retM (filename, false))%store.

(** Lines 157-160: the write through the credential manager of the
    mode. *)
Definition store_credential (mode filename : string) (credential : value) : M S unit :=
  if (mode =? "antigravity")%string
  then add_antigravity_credential filename credential
  else add_credential filename credential.

(** The handler; lines 162-171 build the response. *)
Definition update_token (plugin_token : string) (ts : Z) (request : Request)
  : M S UpdateResponse :=
  (body <- pure (intake_guard plugin_token request) ;;
   '(credential, mode, filename) <- pure (normalize ts body) ;;
   '(filename, updated_existing) <- reconcile mode credential filename ;;
   _ <- store_credential mode filename credential ;;
   let action := if updated_existing then "updated" else "created" in
   retM {| upd_success := true;
           upd_message := "凭证已" ++ (if updated_existing then "更新" else "创建");
           upd_filename := filename;
           upd_action := action;
           upd_id := filename |})%store.

(** *** [check_tokens] *)

(** Lines 180-195: a body that does not decode counts as [{}]. *)
Definition query_guard (plugin_token : string) (request : Request) : outcome value :=
  (let body := match json request with
               | Some b => b
               | None => VDict []
               end in
   if (plugin_token =? "")%string
   then Raise (HTTPException 503 "插件连接未配置")
   else
     req_token <- presented_token request body ;;
     if token_rejected req_token plugin_token
     then Raise (HTTPException 401 "无效的连接 Token")
     else Return body)%outcome.

(** Lines 218-225: the inner [try]; every exception gives [True]. *)
Definition expiry_check (now : Z) (expiry : value) : outcome bool :=
  try_except
    (text <- py_replace expiry "Z" "+00:00" ;;
     exp_dt <- match fromisoformat text with
               | Some dt => Return dt
               | None => Raise ValueError
               end ;;
     expires_within_300s exp_dt now)%outcome
    (Return true).

(** Lines 214-227. *)
Definition needs_refresh_of (now : Z) (cred : value) : outcome bool :=
  (if truthy cred
   then
     expiry <- py_get cred "expiry" (VStr "") ;;
     if truthy expiry
     then expiry_check now expiry
     else Return true
   else Return false)%outcome.

(** [(state or {}).get(key, default) if state else default]. *)
Definition state_field (state : value) (key : string) (default : value) : outcome value :=
  if truthy state then py_get state key default else Return default.

(** Lines 207-235: the body of the [try] for one filename; [now] is the
    clock as read for this filename. *)
Definition token_status (now : Z) (mode f : string) (s : S) : outcome TokenStatus :=
  (state <- get_credential_state f mode s ;;
   cred <- get_credential f mode s ;;
   email <- state_field state "user_email" (VStr "") ;;
   disabled <- state_field state "disabled" (VBool false) ;;
   error_codes <- state_field state "error_codes" (VList []) ;;
   needs_refresh <- needs_refresh_of now cred ;;
   Return {| tok_filename := f;
             tok_email := email;
             tok_is_active := negb (truthy disabled);
             tok_needs_refresh := needs_refresh;
             tok_error_codes := error_codes |})%outcome.

(** Lines 204-237: a filename whose [try] raises is left out.  [clock i]
    is [datetime.now(timezone.utc)] in microseconds as read during the
    iteration of index [i]. *)
Fixpoint collect_tokens (clock : nat -> Z) (i : nat) (mode : string) (s : S)
  (files : list string) : list TokenStatus :=
  match files with
  | [] => []
  | f :: rest =>
      match token_status (clock i) mode f s with
      | Return t => t :: collect_tokens clock (Datatypes.S i) mode s rest
      | Raise _ => collect_tokens clock (Datatypes.S i) mode s rest
      end
  end.

(** Lines 242-244: the comprehension over [tokens]. *)
Fixpoint needs_refresh_emails (tokens : list TokenStatus) : list value :=
  match tokens with
  | [] => []
  | t :: rest =>
      if tok_needs_refresh t && tok_is_active t && truthy (tok_email t)
      then tok_email t :: needs_refresh_emails rest
      else needs_refresh_emails rest
  end.

(** The handler; line 239 builds the response outside every [try], so
    a content the renderer refuses leaves the handler with its
    [ValueError]. *)
Definition check_tokens (plugin_token : string) (clock : nat -> Z) (request : Request)
  : M S CheckResponse :=
  (body <- pure (query_guard plugin_token request) ;;
   mode <- pure (resolve_mode body) ;;
   files <- read (list_credentials mode) ;;
   tokens <- read (fun s => Return (collect_tokens clock 0 mode s files)) ;;
   let resp := {| chk_success := true;
                  chk_tokens := tokens;
                  chk_needs_refresh_emails := needs_refresh_emails tokens |} in
   _ <- pure (render (check_content resp)) ;;
   retM resp)%store.

(** *** [plugin_status] *)

(** Lines 248-255: both fields are [bool(plugin_token)]. *)
Definition plugin_status (plugin_token : string) : StatusResponse :=
  {| st_enabled := negb (plugin_token =? "")%string;
     st_has_token := negb (plugin_token =? "")%string |}.

End Handlers.

(** ** The model catalogue route ([src/panel/models_info.py]) *)

(** [try: body  except Exception as e: handler(e)]. *)
Definition try_except_as {A} (body : outcome A) (handler : exn -> outcome A) : outcome A :=
  match body with
  | Return a => Return a
  | Raise e => handler e
  end.

(** What [get_models_info] calls: [get_available_models] of [src.utils],
    [fetch_available_models] of [src.api.antigravity],
    [get_api_password] of [config], and Python's [str] on an exception.
    Each of the three calls may raise. *)
Class Catalogue : Type := {
  get_available_models : string -> outcome value;
  fetch_available_models : outcome value;
  get_api_password : outcome value;
  str_of_exception : exn -> string
}.

(** A [JSONResponse]: status code and content. *)
Record JSONResponse : Type := {
  status_code : Z;
  content : value
}.

Definition strings (items : list string) : value := VList (map VStr items).

(** Lines 37-56. *)
Definition api_endpoints : value :=
  VDict
    [("gcli",
      VDict [("openai", strings ["/v1/chat/completions"; "/v1/models"]);
             ("gemini", strings ["/v1beta/models";
                                 "/{model}:generateContent";
                                 "/{model}:streamGenerateContent"]);
             ("anthropic", strings ["/v1/messages"])]);
     ("antigravity",
      VDict [("openai", strings ["/antigravity/v1/chat/completions";
                                 "/antigravity/v1/models"]);
             ("gemini", strings ["/antigravity/v1beta/models";
                                 "/antigravity/{model}:generateContent";
                                 "/antigravity/{model}:streamGenerateContent"]);
             ("anthropic", strings ["/antigravity/v1/messages"])])].

(** Lines 20-70: the handler, after the panel token dependency let the
    request through.  The response of line 58 is built, and so rendered,
    inside the [try]. *)
Definition get_models_info {catalogue : Catalogue} : outcome JSONResponse :=
  try_except_as
    (gcli_models <- get_available_models "gemini" ;;
     antigravity_models <- try_except fetch_available_models (Return (VList [])) ;;
     api_key <- get_api_password ;;
     let content := VDict [("gcli_models", gcli_models);
                           ("antigravity_models", antigravity_models);
                           ("api_endpoints", api_endpoints);
                           ("api_key", api_key)] in
     _ <- render content ;;
     Return {| status_code := 200; content := content |})%outcome
    (fun e =>
       Return {| status_code := 500;
                 content := VDict [("error",
                                    VStr ("获取模型信息失败: " ++ str_of_exception e))] |}).

(** ** A store in memory *)

Module MemStore.

(** Modelled from the spec: the store behind [src/storage_adapter.py],
    whose code is not included here.  Section 6 of the specification
    gives its contract: one record and one runtime state per filename in
    each of the two mode partitions, [list_credentials(mode)] the
    sequence of the partition's filenames, [get_credential] and
    [get_credential_state] the record and the state of a filename, or
    nothing.  An entry holds what reading it does, so that a corrupt
    entry is one whose read raises. *)
Record entry : Type := {
  credential : outcome value;
  state : outcome value
}.

Record t : Type := {
  geminicli : list (string * entry);
  antigravity : list (string * entry)
}.

Definition partition (mode : string) (s : t) : list (string * entry) :=
  if (mode =? "antigravity")%string then antigravity s else geminicli s.

Fixpoint find (f : string) (p : list (string * entry)) : option entry :=
  match p with
  | [] => None
  | (f', e) :: p' => if (f' =? f)%string then Some e else find f p'
  end.

Definition listing (mode : string) (s : t) : outcome (list string) :=
  Return (map fst (partition mode s)).

Definition read_credential (f mode : string) (s : t) : outcome value :=
  match find f (partition mode s) with
  | Some e => credential e
  | None => Return VNone
  end.

Definition read_state (f mode : string) (s : t) : outcome value :=
  match find f (partition mode s) with
  | Some e => state e
  | None => Return VNone
  end.

(** Modelled from the spec: the writers of [src/credential_manager.py],
    whose code is not included here.  Section 6 of the specification has
    both overwrite by filename, [add_credential] in the default partition
    and [add_antigravity_credential] in the other one: the record of an
    existing filename is replaced in place and its state is kept; a new
    filename is added at the end without state. *)
Fixpoint put (f : string) (c : value) (p : list (string * entry))
  : list (string * entry) :=
  match p with
  | [] => [(f, {| credential := Return c; state := Return VNone |})]
  | (f', e) :: p' =>
      if (f' =? f)%string
      then (f', {| credential := Return c; state := state e |}) :: p'
      else (f', e) :: put f c p'
  end.

Definition write_geminicli (f : string) (c : value) (s : t) : outcome unit * t :=
  (Return tt, {| geminicli := put f c (geminicli s); antigravity := antigravity s |}).

Definition write_antigravity (f : string) (c : value) (s : t) : outcome unit * t :=
  (Return tt, {| geminicli := geminicli s; antigravity := put f c (antigravity s) |}).

#[global] Instance store : Store t := {
  list_credentials := listing;
  get_credential := read_credential;
  get_credential_state := read_state;
  add_credential := write_geminicli;
  add_antigravity_credential := write_antigravity
}.

Definition empty : t := {| geminicli := []; antigravity := [] |}.

End MemStore.

(** ** A library instance for the examples

    The texts [YYYY-MM-DDTHH:MM:SS], alone (a naive datetime) or followed
    by an offset [+HH:MM] or [-HH:MM] (an aware one), read as
    [datetime.fromisoformat] reads them; every other text is refused
    here.  The theorems below hold for any [Library]; this one serves the
    worked examples. *)

Module Iso.

Local Open Scope outcome_scope.

Definition digit (c : ascii) : outcome Z :=
  let n := Z.of_N (N_of_ascii c) - 48 in
  if (0 <=? n) && (n <=? 9) then Return n else Raise ValueError.

Fixpoint number (width : nat) (acc : Z) (text : string) : outcome (Z * string) :=
  match width with
  | O => Return (acc, text)
  | Datatypes.S w =>
      match text with
      | String c rest => d <- digit c ;; number w (acc * 10 + d) rest
      | EmptyString => Raise ValueError
      end
  end.

Definition expect (c : ascii) (text : string) : outcome string :=
  match text with
  | String c' rest => if Ascii.eqb c c' then Return rest else Raise ValueError
  | EmptyString => Raise ValueError
  end.

Definition check (b : bool) : outcome unit :=
  if b then Return tt else Raise ValueError.

Definition is_leap (y : Z) : bool :=
  ((y mod 4 =? 0) && negb (y mod 100 =? 0)) || (y mod 400 =? 0).

Definition days_in_month (y m : Z) : Z :=
  if m =? 2 then (if is_leap y then 29 else 28)
  else if (m =? 4) || (m =? 6) || (m =? 9) || (m =? 11) then 30
  else 31.

(** Days from 1970-01-01 to the given date of the proleptic Gregorian
    calendar. *)
Definition days_from_civil (y m d : Z) : Z :=
  let y' := if m <=? 2 then y - 1 else y in
  let era := y' / 400 in
  let yoe := y' - era * 400 in
  let doy := (153 * (if 2 <? m then m - 3 else m + 9) + 2) / 5 + d - 1 in
  let doe := yoe * 365 + yoe / 4 - yoe / 100 + doy in
  era * 146097 + doe - 719468.

Definition offset (text : string) : outcome (option Z) :=
  match text with
  | EmptyString => Return None
  | String sign rest =>
      sgn <- (if Ascii.eqb sign "+" then Return 1
              else if Ascii.eqb sign "-" then Return (-1)
              else Raise ValueError) ;;
      '(oh, rest) <- number 2 0 rest ;;
      rest <- expect ":" rest ;;
      '(om, rest) <- number 2 0 rest ;;
      _ <- check ((rest =? "")%string && (oh <=? 23) && (om <=? 59)) ;;
      Return (Some (sgn * (oh * 3600 + om * 60)))
  end.

Definition parse (text : string) : outcome datetime :=
  '(y, rest) <- number 4 0 text ;;
  rest <- expect "-" rest ;;
  '(m, rest) <- number 2 0 rest ;;
  rest <- expect "-" rest ;;
  '(d, rest) <- number 2 0 rest ;;
  rest <- expect "T" rest ;;
  '(hh, rest) <- number 2 0 rest ;;
  rest <- expect ":" rest ;;
  '(mm, rest) <- number 2 0 rest ;;
  rest <- expect ":" rest ;;
  '(ss, rest) <- number 2 0 rest ;;
  off <- offset rest ;;
  _ <- check ((1 <=? y) && (1 <=? m) && (m <=? 12) && (1 <=? d)
              && (d <=? days_in_month y m)
              && (hh <=? 23) && (mm <=? 59) && (ss <=? 59)) ;;
  let wall := days_from_civil y m d * 86400 + hh * 3600 + mm * 60 + ss in
  Return match off with
         | Some o => {| microseconds := (wall - o) * 1000000; aware := true |}
         | None => {| microseconds := wall * 1000000; aware := false |}
         end.

#[global] Instance library : Library := {
  fromisoformat := fun text =>
    match parse text with
    | Return dt => Some dt
    | Raise _ => None
    end;
  (* The examples format strings and integers only. *)
  str_of_compound := fun _ => "..."
}.

End Iso.

(** ** Data of the worked examples *)

Module Sample.

Import MemStore.

(** 2030-01-01T00:00:00 UTC, in microseconds. *)
Definition now : Z := 1893456000 * 1000000.

Definition clock : nat -> Z := fun _ => now.

Definition account (email : string) : outcome value :=
  Return (VDict [("user_email", VStr email); ("disabled", VBool false)]).

Definition record (project : string) (fields : list (string * value)) : outcome value :=
  Return (VDict (("client_id", VStr "c") :: ("refresh_token", VStr "r")
                 :: ("project_id", VStr project) :: fields)).

(** A store whose default partition lists, in this order: a filename
    without record, an empty record, a record whose expiry has no
    offset, two records that expire 200 seconds after [now] and share an
    email, a record that expires one hour after [now], and an entry
    whose record cannot be read. *)
Definition store : MemStore.t := {|
  geminicli :=
    [ ("absent.json", {| credential := Return VNone; state := account "a@example.com" |});
      ("empty.json", {| credential := Return (VDict []); state := Return VNone |});
      ("naive.json", {| credential := record "p0" [("expiry", VStr "2999-01-01T00:00:00")];
                        state := Return VNone |});
      ("soon.json", {| credential := record "p1" [("expiry", VStr "2030-01-01T00:03:20Z")];
                       state := account "b@example.com" |});
      ("again.json", {| credential := record "p1" [("expiry", VStr "2030-01-01T00:03:20Z")];
                        state := account "b@example.com" |});
      ("later.json", {| credential := record "p2" [("expiry", VStr "2030-01-01T01:00:00Z")];
                        state := account "c@example.com" |});
      ("corrupt.json", {| credential := Raise (StoreError "unreadable");
                          state := Return VNone |}) ];
  antigravity := []
|}.

(** A query and a push that present the secret ["S"] in the header. *)
Definition query : Request :=
  {| json := Some (VDict []); authorization := Some "Bearer S" |}.

Definition push (fields : list (string * value)) : Request :=
  {| json := Some (VDict fields); authorization := Some "Bearer S" |}.

Definition payload_p1 : list (string * value) :=
  [("client_id", VStr "c1"); ("refresh_token", VStr "r1"); ("project_id", VStr "p1")].

End Sample.

(** A store that fails, for the examples of store errors: its state
    says whether the listing still works (and is empty); every other
    call raises. *)
Module Failing.

#[global] Instance store : Store bool := {
  list_credentials := fun _ up =>
    if up then Return [] else Raise (StoreError "listing");
  get_credential := fun _ _ _ => Raise (StoreError "read");
  get_credential_state := fun _ _ _ => Raise (StoreError "read");
  add_credential := fun _ _ up => (Raise (StoreError "write"), up);
  add_antigravity_credential := fun _ _ up => (Raise (StoreError "write"), up)
}.

End Failing.

(** ** Notions of the statements *)

(** The data model's filename keys: every listed filename ends with the
    fixed suffix. *)
Definition suffixed (f : string) : Prop := endswith f ".json" = true.

Definition well_named {S : Type} {store : Store S} (s : S) : Prop :=
  forall mode files, list_credentials mode s = Return files -> Forall suffixed files.

(** The secret of the authorization header: the text after ["Bearer "]. *)
Definition bearer (request : Request) : option string :=
  match authorization request with
  | Some a => if prefix "Bearer " a then Some (drop 7 a) else None
  | None => None
  end.

(** The secret a request with body [fields] presents: the bearer secret
    when there is one, else the body's [token] field, else nothing. *)
Definition presented_secret (request : Request) (fields : list (string * value)) : value :=
  match bearer request with
  | Some t => VStr t
  | None => dict_get fields "token" (VStr "")
  end.

(** The presented secret is a non-empty string equal to the configured
    one. *)
Definition accepted (presented : value) (secret : string) : Prop :=
  exists t, presented = VStr t /\ t <> "" /\ t = secret.

(** A dict without one of its keys. *)
Fixpoint remove_key (k : string) (d : list (string * value)) : list (string * value) :=
  match d with
  | [] => []
  | (k', v) :: d' =>
      if (k' =? k)%string then remove_key k d' else (k', v) :: remove_key k d'
  end.

(** The recognised fields of a body whose values are not falsy. *)
Definition flatten_fields (fields : list (string * value)) : list (string * value) :=
  filter (fun kv => in_keys (fst kv) cred_keys && truthy (snd kv)) fields.

(** The candidate has no [key], or a falsy one. *)
Definition lacks (key : string) (c : list (string * value)) : bool :=
  match lookup key c with
  | Some v => negb (truthy v)
  | None => true
  end.

(** How the [expiry] of a stored record reads: missing or falsy, not a
    timestamp (not a string, or a text [fromisoformat] refuses), a
    timestamp without UTC offset, or an instant in microseconds. *)
Inductive expiry_reading : Type :=
| ExpiryAbsent
| ExpiryUnparsable
| ExpiryNaive
| ExpiryAt (instant : Z).

Definition read_expiry {library : Library} (d : list (string * value)) : expiry_reading :=
  match lookup "expiry" d with
  | None => ExpiryAbsent
  | Some v =>
      if truthy v
      then match v with
           | VStr text =>
               match fromisoformat (replace text "Z" "+00:00") with
               | Some dt => if aware dt then ExpiryAt (microseconds dt) else ExpiryNaive
               | None => ExpiryUnparsable
               end
           | _ => ExpiryUnparsable
           end
      else ExpiryAbsent
  end.

(** The record is to be refreshed: anything but an instant at least 300
    seconds after [now]. *)
Definition due (now : Z) (r : expiry_reading) : Prop :=
  match r with
  | ExpiryAt instant => instant - now < 300 * 1000000
  | _ => True
  end.


(** The two fields of a summary that come from the store can be
    rendered. *)
Definition renders (t : TokenStatus) : bool :=
  renderable (tok_email t) && renderable (tok_error_codes t).

(** The summaries whose email is reported. *)
Definition reported (t : TokenStatus) : bool :=
  tok_needs_refresh t && tok_is_active t && truthy (tok_email t).

(** A value whose [get] does not raise where the handlers guard it with
    a truth test: a falsy value or an object. *)
Definition dict_or_falsy (v : value) : bool :=
  negb (truthy v) || match v with VDict _ => true | _ => false end.

Section StoredProject.

Context {S : Type} {store : Store S}.

(** The record stored under [f] has a [project_id] equal to
    [project_id]. *)
Definition stores_project (mode : string) (project_id : value) (s : S) (f : string) : Prop :=
  exists d p,
    get_credential f mode s = Return (VDict d)
    /\ lookup "project_id" d = Some p
    /\ Py.eqb p project_id = true.

(** Both reads of [f] return, each a falsy value or an object. *)
Definition summarisable (mode : string) (s : S) (f : string) : bool :=
  match get_credential_state f mode s, get_credential f mode s with
  | Return state, Return cred => dict_or_falsy state && dict_or_falsy cred
  | _, _ => false
  end.

End StoredProject.


(** Modelled from the spec: the contract of the writers of
    [src/credential_manager.py], whose code is not included here.
    Section 6 of the specification has both writers overwrite by
    filename, each in its own partition: the write succeeds and a read of
    the filename afterwards returns the record written. *)
Class OverwriteByFilename (S : Type) {store : Store S} : Prop := {
  add_credential_overwrites : forall (f : string) (c : value) (s : S),
    exists s', add_credential f c s = (Return tt, s')
               /\ get_credential f "geminicli" s' = Return c;
  add_antigravity_credential_overwrites : forall (f : string) (c : value) (s : S),
    exists s', add_antigravity_credential f c s = (Return tt, s')
               /\ get_credential f "antigravity" s' = Return c
}.

(** * Properties *)

(** ** Values and strings *)

Lemma eqb_VStr (v : value) (t : string) :
  Py.eqb v (VStr t) = true <-> v = VStr t.
Proof.
  destruct v; simpl; try (split; discriminate).
  rewrite String.eqb_eq. split; congruence.
Qed.

Lemma endswith_refl (s : string) : endswith s s = true.
Proof. destruct s; cbn [endswith]; rewrite String.eqb_refl; reflexivity. Qed.

Lemma endswith_app (s suffix : string) : endswith (s ++ suffix) suffix = true.
Proof.
  induction s as [ | c s IH ].
  - apply endswith_refl.
  - cbn [append endswith]. rewrite IH. apply orb_true_r.
Qed.

(** [endswith] and the pair [prefix]/[drop] are what their Python
    counterparts are: a decomposition of the string. *)
Lemma endswith_iff (s suffix : string) :
  endswith s suffix = true <-> exists p, s = p ++ suffix.
Proof.
  split.
  - induction s as [ | c s IH ]; cbn [endswith]; rewrite orb_true_iff.
    + intros [ H | H ]; [ | discriminate ].
      apply String.eqb_eq in H. exists "". rewrite <- H. reflexivity.
    + intros [ H | H ].
      * apply String.eqb_eq in H. exists "". rewrite <- H. reflexivity.
      * destruct (IH H) as [p ->]. exists (String c p). reflexivity.
  - intros [p ->]. apply endswith_app.
Qed.

Lemma prefix_drop (p s : string) :
  prefix p s = true -> s = p ++ drop (String.length p) s.
Proof.
  revert s. induction p as [ | c p IH ]; intros s; [ reflexivity | ].
  destruct s as [ | c' s ]; cbn [prefix]; [ discriminate | ].
  destruct (ascii_dec c c') as [ <- | ]; [ | discriminate ].
  intros H. cbn [String.length drop append]. f_equal. now apply IH.
Qed.

Lemma py_get_dict (d : list (string * value)) (key : string) (default : value) :
  py_get (VDict d) key default = Return (dict_get d key default).
Proof. reflexivity. Qed.


(** ** The guard *)

Lemma presented_token_dict (request : Request) (fields : list (string * value)) :
  presented_token request (VDict fields) = Return (presented_secret request fields).
Proof.
  unfold presented_token, presented_secret, bearer, header_authorization.
  simpl. destruct (authorization request) as [ a | ]; simpl.
  - destruct (prefix "Bearer " a); reflexivity.
  - reflexivity.
Qed.

Lemma token_rejected_false (v : value) (secret : string) :
  token_rejected v secret = false <-> accepted v secret.
Proof.
  unfold token_rejected, accepted. rewrite orb_false_iff, !negb_false_iff, eqb_VStr.
  split.
  - intros [Ht Hv]. subst v. exists secret. repeat split; trivial.
    simpl in Ht. intros ->. discriminate.
  - intros (t & -> & Hne & <-). split; trivial.
    simpl. destruct (String.eqb_spec t ""); [ contradiction | reflexivity ].
Qed.

Lemma token_rejected_true (v : value) (secret : string) :
  token_rejected v secret = true <-> ~ accepted v secret.
Proof.
  rewrite <- token_rejected_false. destruct (token_rejected v secret); split; congruence.
Qed.

Section Guard.

Context {S : Type} {store : Store S} {library : Library}.

Lemma intake_guard_dict (secret : string) (request : Request)
  (fields : list (string * value)) :
  (secret =? "")%string = false ->
  json request = Some (VDict fields) ->
  intake_guard secret request =
  if token_rejected (presented_secret request fields) secret
  then Raise (HTTPException 401 "无效的连接 Token")
  else Return (VDict fields).
Proof.
  intros Hs Hj. unfold intake_guard. rewrite Hj. cbn [bind]. rewrite Hs.
  rewrite presented_token_dict. reflexivity.
Qed.

Lemma query_guard_dict (secret : string) (request : Request)
  (fields : list (string * value)) :
  (secret =? "")%string = false ->
  json request = Some (VDict fields) \/ (json request = None /\ fields = []) ->
  query_guard secret request =
  if token_rejected (presented_secret request fields) secret
  then Raise (HTTPException 401 "无效的连接 Token")
  else Return (VDict fields).
Proof.
  intros Hs Hj. unfold query_guard. rewrite Hs.
  destruct Hj as [ -> | [-> ->] ]; rewrite presented_token_dict; reflexivity.
Qed.

(** A request that passes the intake guard has an object as its body. *)
Lemma intake_guard_returns (secret : string) (request : Request) (body : value) :
  intake_guard secret request = Return body ->
  exists fields,
    body = VDict fields /\ json request = Some body /\
    accepted (presented_secret request fields) secret.
Proof.
  unfold intake_guard. destruct (json request) as [ b | ]; cbn [bind]; [ | discriminate ].
  destruct (secret =? "")%string; [ discriminate | ].
  destruct b as [ | | | | | | fields ]; try discriminate.
  rewrite presented_token_dict. cbn [bind].
  destruct (token_rejected _ secret) eqn:Hr; [ discriminate | ].
  intros [= <-]. exists fields. rewrite token_rejected_false in Hr. auto.
Qed.

Lemma update_token_guard_raises (secret : string) (ts : Z) (request : Request)
  (e : exn) (s : S) :
  intake_guard secret request = Raise e ->
  update_token secret ts request s = (Raise e, s).
Proof. intros H. unfold update_token, bindM, pure. rewrite H. reflexivity. Qed.

Lemma check_tokens_guard_raises (secret : string) (clock : nat -> Z)
  (request : Request) (e : exn) (s : S) :
  query_guard secret request = Raise e ->
  check_tokens secret clock request s = (Raise e, s).
Proof. intros H. unfold check_tokens, bindM, pure. rewrite H. reflexivity. Qed.

(** C4, as stated, fails: with no secret configured and a body that is
    not JSON, the intake answers 400, not 503. *)
Lemma unconfigured_malformed_intake_is_400 :
  let request := {| json := None; authorization := Some "Bearer S" |} in
  fst (update_token (store := MemStore.store) (library := Iso.library)
         "" 1700000000 request MemStore.empty)
  = Raise (HTTPException 400 "无效的 JSON")
  /\ ~ is_http 503
       (fst (update_token (store := MemStore.store) (library := Iso.library)
               "" 1700000000 request MemStore.empty)).
Proof.
  split; [ reflexivity | ].
  intros [detail H]. discriminate H.
Qed.

(** C4 (amended).  While no secret is configured, an intake request whose
    body decodes as JSON fails with 503 whatever the decoded value is
    (an object or not) and whatever the headers are, and a body that does
    not decode fails with 400; in both cases the store is left as it was. *)
Theorem update_token_unconfigured (ts : Z) (request : Request) (s : S) :
  update_token "" ts request s =
  (match json request with
   | Some _ => Raise (HTTPException 503 "插件连接未配置 connection_token")
   | None => Raise (HTTPException 400 "无效的 JSON")
   end, s).
Proof.
  destruct (json request) eqn:Hj;
    apply update_token_guard_raises; unfold intake_guard; rewrite Hj; reflexivity.
Qed.

(** C3, as stated, fails: with the secret ["S"] configured, an intake
    request that presents another secret in its header and carries a
    body that is not JSON is answered 400, not 401. *)
Lemma wrong_secret_malformed_intake_is_400 :
  let request := {| json := None; authorization := Some "Bearer wrong" |} in
  bearer request = Some "wrong"
  /\ ~ accepted (VStr "wrong") "S"
  /\ fst (update_token (store := MemStore.store) (library := Iso.library)
            "S" 1700000000 request MemStore.empty)
     = Raise (HTTPException 400 "无效的 JSON")
  /\ ~ is_http 401
       (fst (update_token (store := MemStore.store) (library := Iso.library)
               "S" 1700000000 request MemStore.empty)).
Proof.
  repeat split.
  - intros (t & [= <-] & _ & [=]).
  - intros [detail H]. discriminate H.
Qed.

(** C3 (amended).  While a secret is configured: for an intake request
    whose body decodes to a JSON object, and for a query request whose
    body decodes to a JSON object or does not decode (it then counts as
    the empty object), the guard lets the request through exactly when
    the presented secret (the text after ["Bearer "] of the authorization
    header when the header starts with it, else the body's [token] field)
    is a non-empty string equal to the configured secret, and otherwise
    the request fails with 401 and the store is left as it was.  An
    intake request whose body does not decode fails with 400 whatever it
    presents. *)
Theorem guard_accepts_exactly_the_secret (secret : string) (request : Request)
  (fields : list (string * value)) :
  (secret =? "")%string = false ->
  (json request = Some (VDict fields) ->
   (accepted (presented_secret request fields) secret <->
    intake_guard secret request = Return (VDict fields))
   /\ (~ accepted (presented_secret request fields) secret ->
       forall (ts : Z) (s : S),
         update_token secret ts request s =
         (Raise (HTTPException 401 "无效的连接 Token"), s)))
  /\ (json request = Some (VDict fields) \/ (json request = None /\ fields = []) ->
      (accepted (presented_secret request fields) secret <->
       query_guard secret request = Return (VDict fields))
      /\ (~ accepted (presented_secret request fields) secret ->
          forall (clock : nat -> Z) (s : S),
            check_tokens secret clock request s =
            (Raise (HTTPException 401 "无效的连接 Token"), s)))
  /\ (json request = None ->
      forall (ts : Z) (s : S),
        update_token secret ts request s =
        (Raise (HTTPException 400 "无效的 JSON"), s)).
Proof.
  intros Hs. split; [ | split ]; intros Hj.
  3:{ intros ts s. apply update_token_guard_raises.
      unfold intake_guard. rewrite Hj. reflexivity. }
  - pose proof (intake_guard_dict _ _ _ Hs Hj) as Hg.
    destruct (token_rejected (presented_secret request fields) secret) eqn:Hr.
    + apply token_rejected_true in Hr. split.
      * split; [ contradiction | ]. rewrite Hg. discriminate.
      * intros _ ts s. now apply update_token_guard_raises.
    + apply token_rejected_false in Hr. split.
      * split; trivial.
      * contradiction.
  - pose proof (query_guard_dict _ _ _ Hs Hj) as Hg.
    destruct (token_rejected (presented_secret request fields) secret) eqn:Hr.
    + apply token_rejected_true in Hr. split.
      * split; [ contradiction | ]. rewrite Hg. discriminate.
      * intros _ clock s. now apply check_tokens_guard_raises.
    + apply token_rejected_false in Hr. split.
      * split; trivial.
      * contradiction.
Qed.

(** X18.  With a secret configured, a body that decodes to anything but
    an object makes [body.get] raise in both handlers, whatever the
    request presents; the helper [_verify_plugin_token] answers such a
    request with a structured error. *)
Lemma non_object_body_unhandled (secret : string) (request : Request) (body : value) :
  (secret =? "")%string = false ->
  json request = Some body ->
  (forall fields, body <> VDict fields) ->
  (forall (ts : Z) (s : S),
      update_token secret ts request s = (Raise AttributeError, s))
  /\ (forall (clock : nat -> Z) (s : S),
        check_tokens secret clock request s = (Raise AttributeError, s)).
Proof.
  intros Hs Hj Hb.
  assert (Hget : presented_token request body = Raise AttributeError).
  { unfold presented_token. destruct body; try reflexivity. now destruct (Hb fields). }
  split; intros.
  - apply update_token_guard_raises. unfold intake_guard.
    rewrite Hj. cbn [bind]. rewrite Hs, Hget. reflexivity.
  - apply check_tokens_guard_raises. unfold query_guard.
    rewrite Hj, Hs, Hget. reflexivity.
Qed.

Lemma verify_plugin_token_structured (secret : string) (request : Request) :
  (exists t, _verify_plugin_token secret request = Return t)
  \/ is_http 503 (_verify_plugin_token secret request)
  \/ is_http 401 (_verify_plugin_token secret request).
Proof.
  unfold _verify_plugin_token, is_http.
  destruct (secret =? "")%string; [ right; left; eauto | ].
  match goal with
  | |- context [ bind ?chosen _ ] =>
      assert (H : exists v, chosen = Return v);
      [ | destruct H as [v ->] ]
  end.
  { destruct (prefix "Bearer " (header_authorization request)); [ eauto | ].
    unfold try_except.
    match goal with |- exists v, match ?body with _ => _ end = _ => destruct body end; eauto. }
  cbn [bind]. destruct (token_rejected v secret); eauto.
Qed.

(** C8: an intake request whose body is the JSON array [[]] and whose
    header carries the configured secret leaves the handler with an
    [AttributeError] ([body.get] on a list), which is none of the
    structured errors. *)
Theorem update_token_array_body_unhandled (ts : Z) (s : S) :
  update_token "S" ts
    {| json := Some (VList []); authorization := Some "Bearer S" |} s
  = (Raise AttributeError, s).
Proof. reflexivity. Qed.

End Guard.

(** The guard at work: the header wins over the body field. *)
Lemma guard_accepts_exactly_the_secret_example :
  let request := {| json := Some (VDict [("token", VStr "other")]);
                    authorization := Some "Bearer S" |} in
  (accepted (presented_secret request [("token", VStr "other")]) "S" <->
   intake_guard "S" request = Return (VDict [("token", VStr "other")]))
  /\ (~ accepted (presented_secret request [("token", VStr "other")]) "S" ->
      forall (ts : Z) (s : MemStore.t),
        update_token (library := Iso.library) "S" ts request s =
        (Raise (HTTPException 401 "无效的连接 Token"), s)).
Proof.
  refine (proj1 (@guard_accepts_exactly_the_secret MemStore.t MemStore.store
                   Iso.library "S"
                   {| json := Some (VDict [("token", VStr "other")]);
                      authorization := Some "Bearer S" |}
                   [("token", VStr "other")] _) _); reflexivity.
Defined.

(** ** The normalizer *)

Lemma lookup_remove_key (k k' : string) (d : list (string * value)) :
  (k' =? k)%string = false ->
  lookup k' (remove_key k d) = lookup k' d.
Proof.
  intros Hk. induction d as [ | [k0 v] d IH ]; [ reflexivity | ].
  cbn [remove_key lookup].
  destruct (String.eqb_spec k0 k) as [ -> | Hne ].
  - rewrite IH. rewrite String.eqb_sym, Hk. reflexivity.
  - cbn [lookup]. rewrite IH. reflexivity.
Qed.

Lemma lookup_remove_key_same (k : string) (d : list (string * value)) :
  lookup k (remove_key k d) = None.
Proof.
  induction d as [ | [k0 v] d IH ]; [ reflexivity | ].
  cbn [remove_key]. destruct (String.eqb_spec k0 k) as [ -> | Hne ]; [ exact IH | ].
  cbn [lookup]. destruct (String.eqb_spec k0 k); [ contradiction | exact IH ].
Qed.

Lemma flatten_remove_key (k : string) (d : list (string * value)) :
  in_keys k cred_keys = false ->
  flatten_fields (remove_key k d) = flatten_fields d.
Proof.
  intros Hk. unfold flatten_fields.
  induction d as [ | [k0 v] d IH ]; [ reflexivity | ].
  cbn [remove_key filter fst snd].
  destruct (String.eqb_spec k0 k) as [ -> | Hne ].
  - rewrite Hk. cbn [andb]. exact IH.
  - cbn [filter fst snd]. rewrite IH. reflexivity.
Qed.

Lemma extract_credential_flat (fields : list (string * value)) :
  match lookup "credential" fields with
  | Some nested => truthy nested = false
  | None => True
  end ->
  extract_credential (VDict fields) = Return (VDict (flatten_fields fields)).
Proof.
  intros H. unfold extract_credential. rewrite py_get_dict. cbn [bind].
  unfold dict_get. destruct (lookup "credential" fields) as [ nested | ].
  - rewrite H. reflexivity.
  - reflexivity.
Qed.

Lemma extract_credential_nested (fields : list (string * value)) (nested : value) :
  lookup "credential" fields = Some nested ->
  truthy nested = true ->
  extract_credential (VDict fields) = Return nested.
Proof.
  intros Hl Ht. unfold extract_credential. rewrite py_get_dict. unfold dict_get.
  rewrite Hl. cbn [bind].
  rewrite Ht. reflexivity.
Qed.

Lemma validate_credential_lacking (c : list (string * value)) :
  lacks "client_id" c || lacks "refresh_token" c = true ->
  exists detail, validate_credential (VDict c) = Raise (HTTPException 400 detail).
Proof.
  intros H. unfold validate_credential.
  destruct (truthy (VDict c)); cbn [negb]; [ | eauto ].
  rewrite !py_get_dict. cbn [bind].
  unfold lacks in H. unfold dict_get.
  destruct (lookup "refresh_token" c) as [ r | ];
    destruct (lookup "client_id" c) as [ i | ]; cbn [truthy negb orb] in *;
    try (eexists; reflexivity).
  - destruct (truthy r), (truthy i); try discriminate; eexists; reflexivity.
  - destruct (truthy r); eexists; reflexivity.
Qed.

Section Intake.

Context {S : Type} {store : Store S} {library : Library}.

Lemma update_token_normalize_raises (secret : string) (ts : Z) (request : Request)
  (body : value) (e : exn) (s : S) :
  intake_guard secret request = Return body ->
  normalize ts body = Raise e ->
  update_token secret ts request s = (Raise e, s).
Proof.
  intros Hg Hn. unfold update_token, bindM, pure. rewrite Hg, Hn. reflexivity.
Qed.

(** X21.  An authenticated intake push whose candidate credential is an
    object, be it the nested [credential] object or the fields extracted
    from the flattened body, and has no non-empty [client_id] or no
    non-empty [refresh_token] fails with 400, and the store is left as
    it was: no store call is made. *)
Theorem missing_identity_is_400 (secret : string) (ts : Z) (request : Request)
  (body : value) (c : list (string * value)) (s : S) :
  intake_guard secret request = Return body ->
  extract_credential body = Return (VDict c) ->
  lacks "client_id" c || lacks "refresh_token" c = true ->
  exists detail,
    update_token secret ts request s = (Raise (HTTPException 400 detail), s).
Proof.
  intros Hg He Hl.
  destruct (validate_credential_lacking c Hl) as [detail Hv].
  exists detail. apply update_token_normalize_raises with (body := body); trivial.
  unfold normalize. rewrite He. cbn [bind]. rewrite Hv. reflexivity.
Qed.

(** C6: an authenticated intake push whose nested [credential] is the
    string ["abc"], a candidate without [client_id] and
    [refresh_token], does not fail with 400: [credential.get] of line
    114 raises an [AttributeError] that nothing catches.  The store is
    left as it was. *)
Theorem non_object_credential_unhandled (ts : Z) (s : S) :
  update_token "S" ts
    {| json := Some (VDict [("credential", VStr "abc")]);
       authorization := Some "Bearer S" |} s
  = (Raise AttributeError, s).
Proof. reflexivity. Qed.

Lemma normalize_remove_credential (ts : Z) (fields : list (string * value))
  (nested : value) :
  lookup "credential" fields = Some nested ->
  truthy nested = false ->
  normalize ts (VDict (remove_key "credential" fields)) = normalize ts (VDict fields).
Proof.
  intros Hl Ht. unfold normalize.
  rewrite (extract_credential_flat fields) by (rewrite Hl; exact Ht).
  rewrite extract_credential_flat by (rewrite lookup_remove_key_same; exact I).
  rewrite flatten_remove_key by reflexivity.
  unfold resolve_mode, resolve_filename. rewrite !py_get_dict. unfold dict_get.
  rewrite !lookup_remove_key by reflexivity. reflexivity.
Qed.

(** C10.  A nested [credential] field whose value is falsy (an empty
    object, [null], an empty string, ...) is handled exactly as a body
    without that field: the candidate is the flattened extraction of the
    recognised non-falsy fields, the outcome and the store afterwards are
    those of the same request with the field removed, and when that
    extraction is empty an authenticated request fails with 400. *)
Theorem falsy_nested_credential_is_absent (secret : string) (ts : Z)
  (auth : option string) (fields : list (string * value)) (nested : value) (s : S) :
  lookup "credential" fields = Some nested ->
  truthy nested = false ->
  let request := {| json := Some (VDict fields); authorization := auth |} in
  let request' := {| json := Some (VDict (remove_key "credential" fields));
                     authorization := auth |} in
  extract_credential (VDict fields) = Return (VDict (flatten_fields fields))
  /\ update_token secret ts request s = update_token secret ts request' s
  /\ (flatten_fields fields = [] ->
      intake_guard secret request = Return (VDict fields) ->
      update_token secret ts request s =
      (Raise (HTTPException 400 "缺少凭证数据"), s)).
Proof.
  intros Hl Ht request request'.
  assert (He : extract_credential (VDict fields) = Return (VDict (flatten_fields fields)))
    by (apply extract_credential_flat; rewrite Hl; exact Ht).
  split; [ exact He | split ].
  - destruct (secret =? "")%string eqn:Hs.
    + apply String.eqb_eq in Hs. subst secret.
      rewrite !update_token_guard_raises
        with (e := HTTPException 503 "插件连接未配置 connection_token") by reflexivity.
      reflexivity.
    + pose proof (intake_guard_dict secret request fields Hs eq_refl) as Hg.
      pose proof (intake_guard_dict secret request' _ Hs eq_refl) as Hg'.
      assert (Hp : presented_secret request' (remove_key "credential" fields)
                   = presented_secret request fields).
      { unfold presented_secret, dict_get.
        rewrite lookup_remove_key by reflexivity. reflexivity. }
      rewrite Hp in Hg'.
      destruct (token_rejected (presented_secret request fields) secret).
      * rewrite !update_token_guard_raises with (e := HTTPException 401 "无效的连接 Token");
          trivial.
      * unfold update_token, bindM, pure. rewrite Hg, Hg'.
        rewrite (normalize_remove_credential ts fields nested Hl Ht). reflexivity.
  - intros Hf Hg. apply update_token_normalize_raises with (body := VDict fields); trivial.
    unfold normalize. rewrite He, Hf. reflexivity.
Qed.

End Intake.

(** ** The dedup matcher *)

Section Dedup.

Context {S : Type} {store : Store S} {library : Library}.

Lemma same_project_iff (mode : string) (project_id : value) (s : S) (f : string) :
  truthy project_id = true ->
  same_project mode project_id s f = true <-> stores_project mode project_id s f.
Proof.
  intros Hp. unfold same_project, stores_project. split.
  - destruct (get_credential f mode s) as [ data | e ]; cbn [bind]; [ | discriminate ].
    destruct (truthy data); [ | discriminate ].
    destruct data as [ | | | | | | d ]; try discriminate.
    rewrite py_get_dict. cbn [bind]. unfold dict_get. intros H.
    destruct (lookup "project_id" d) as [ p | ] eqn:Hl.
    + exists d, p. auto.
    + destruct project_id; discriminate.
  - intros (d & p & -> & Hl & He). cbn [bind].
    assert (Ht : truthy (VDict d) = true) by (destruct d; [ discriminate | reflexivity ]).
    rewrite Ht, py_get_dict. unfold dict_get. rewrite Hl. exact He.
Qed.

Lemma scan_existing_first (mode : string) (project_id : value) (s : S)
  (files : list string) (ef : string) :
  scan_existing mode project_id s files = Some ef <->
  exists before after,
    files = (before ++ ef :: after)%list
    /\ same_project mode project_id s ef = true
    /\ forall g, In g before -> same_project mode project_id s g = false.
Proof.
  induction files as [ | f files IH ]; cbn [scan_existing].
  - split; [ discriminate | ].
    intros (before & after & H & _). destruct before; discriminate.
  - destruct (same_project mode project_id s f) eqn:Hf.
    + split.
      * intros [= <-]. exists [], files. repeat split; trivial. intros g [].
      * intros (before & after & H & He & Hb). destruct before as [ | g before ].
        -- injection H as -> _. reflexivity.
        -- injection H as -> _. rewrite (Hb g (or_introl eq_refl)) in Hf. discriminate.
    + rewrite IH. split.
      * intros (before & after & -> & He & Hb). exists (f :: before), after.
        repeat split; trivial. intros g [ <- | Hg ]; auto.
      * intros (before & after & H & He & Hb). destruct before as [ | g before ].
        -- injection H as -> _. congruence.
        -- injection H as -> ->. exists before, after. repeat split; trivial.
           intros g' Hg'. apply Hb. now right.
Qed.

Lemma scan_existing_finds (mode : string) (project_id : value) (s : S)
  (files : list string) (f : string) :
  In f files ->
  same_project mode project_id s f = true ->
  exists ef, scan_existing mode project_id s files = Some ef.
Proof.
  intros Hin Hf. induction files as [ | g files IH ]; [ destruct Hin | ].
  cbn [scan_existing]. destruct (same_project mode project_id s g) eqn:Hg; [ eauto | ].
  destruct Hin as [ -> | Hin ]; [ congruence | auto ].
Qed.

Lemma scan_existing_listed (mode : string) (project_id : value) (s : S)
  (files : list string) (ef : string) :
  scan_existing mode project_id s files = Some ef -> In ef files.
Proof.
  rewrite scan_existing_first. intros (before & after & -> & _).
  apply in_or_app. right. now left.
Qed.

Lemma resolve_mode_cases (body : value) (mode : string) :
  resolve_mode body = Return mode -> mode = "geminicli" \/ mode = "antigravity".
Proof.
  unfold resolve_mode. destruct (py_get body "mode" (VStr "geminicli")) as [ m | ];
    cbn [bind]; [ | discriminate ].
  destruct (Py.eqb m (VStr "geminicli")); [ intros [= <-]; auto | ].
  destruct (Py.eqb m (VStr "antigravity")); intros [= <-]; auto.
Qed.

Lemma resolve_filename_suffix (ts : Z) (body credential : value) (filename : string) :
  resolve_filename ts body credential = Return filename ->
  endswith filename ".json" = true.
Proof.
  unfold resolve_filename.
  destruct (py_get body "filename" (VStr "")) as [ given | ]; cbn [bind]; [ | discriminate ].
  match goal with
  | |- bind ?chosen _ = _ -> _ => destruct chosen as [ v | ]; cbn [bind]; [ | discriminate ]
  end.
  destruct v as [ | | | | name | | ]; try discriminate. cbn [py_endswith bind].
  destruct (endswith name ".json") eqn:He; cbn [negb]; intros [= <-].
  - exact He.
  - apply endswith_app.
Qed.

Lemma normalize_returns (ts : Z) (body credential : value) (mode filename : string) :
  normalize ts body = Return (credential, mode, filename) ->
  (mode = "geminicli" \/ mode = "antigravity")
  /\ endswith filename ".json" = true.
Proof.
  unfold normalize.
  destruct (extract_credential body) as [ c | ]; cbn [bind]; [ | discriminate ].
  destruct (validate_credential c); cbn [bind]; [ | discriminate ].
  destruct (resolve_mode body) as [ m | ] eqn:Hm; cbn [bind]; [ | discriminate ].
  destruct (resolve_filename ts body c) as [ f | ] eqn:Hf; cbn [bind]; [ | discriminate ].
  intros [= <- <- <-]. split.
  - eapply resolve_mode_cases; eauto.
  - eapply resolve_filename_suffix; eauto.
Qed.

(** What a push that passed the guard and the normalizer does next. *)
Lemma update_token_after_normalize (secret : string) (ts : Z) (request : Request)
  (body credential : value) (mode filename : string) (s : S) :
  intake_guard secret request = Return body ->
  normalize ts body = Return (credential, mode, filename) ->
  update_token secret ts request s =
  match list_credentials mode s with
  | Raise e => (Raise e, s)
  | Return files =>
      match py_get credential "project_id" (VStr "") with
      | Raise e => (Raise e, s)
      | Return project_id =>
          let found := if truthy project_id
                       then scan_existing mode project_id s files
                       else None in
          let final := match found with Some ef => ef | None => filename end in
          let updated := match found with Some _ => true | None => false end in
          match store_credential mode final credential s with
          | (Raise e, s') => (Raise e, s')
          | (Return _, s') =>
              (Return {| upd_success := true;
                         upd_message :=
                           "凭证已" ++ (if updated then "更新" else "创建");
                         upd_filename := final;
                         upd_action := if updated then "updated" else "created";
                         upd_id := final |}, s')
          end
      end
  end.
Proof.
  intros Hg Hn. unfold update_token, bindM, pure. rewrite Hg, Hn.
  unfold reconcile, bindM, read, pure, retM.
  destruct (list_credentials mode s) as [ files | ]; [ | reflexivity ].
  destruct (py_get credential "project_id" (VStr "")) as [ project_id | ]; [ | reflexivity ].
  destruct (truthy project_id);
    [ destruct (scan_existing mode project_id s files) as [ ef | ] | ]; cbv beta iota zeta.
  - destruct (store_credential mode ef credential s) as [ [ ? | ? ] ? ]; reflexivity.
  - destruct (store_credential mode filename credential s) as [ [ ? | ? ] ? ]; reflexivity.
  - destruct (store_credential mode filename credential s) as [ [ ? | ? ] ? ]; reflexivity.
Qed.

(** C7.  When every filename the store lists ends with [".json"] (the
    data model's filename keys), the filename of a successful intake
    response ends with [".json"], be it supplied by the caller, derived
    from name, project and timestamp, or taken from a stored record by
    the dedup match; it is also the [id] of the response and the filename
    the credential is written under. *)
Theorem returned_filename_has_suffix (secret : string) (ts : Z) (request : Request)
  (s s' : S) (resp : UpdateResponse) :
  well_named s ->
  update_token secret ts request s = (Return resp, s') ->
  endswith (upd_filename resp) ".json" = true
  /\ upd_id resp = upd_filename resp
  /\ exists mode credential,
       store_credential mode (upd_filename resp) credential s = (Return tt, s').
Proof.
  intros Hstore Hrun.
  destruct (intake_guard secret request) as [ body | e ] eqn:Hg.
  2:{ rewrite (update_token_guard_raises _ _ _ _ _ Hg) in Hrun. discriminate. }
  destruct (normalize ts body) as [ [[credential mode] filename] | e ] eqn:Hn.
  2:{ rewrite (update_token_normalize_raises _ _ _ _ _ _ Hg Hn) in Hrun. discriminate. }
  rewrite (update_token_after_normalize _ _ _ _ _ _ _ _ Hg Hn) in Hrun.
  destruct (normalize_returns _ _ _ _ _ Hn) as [_ Hsuffix].
  destruct (list_credentials mode s) as [ files | ] eqn:Hfiles; [ | discriminate ].
  destruct (py_get credential "project_id" (VStr "")) as [ project_id | ];
    [ | discriminate ].
  cbv zeta in Hrun.
  set (found := if truthy project_id
                then scan_existing mode project_id s files else None) in *.
  assert (Hfinal : endswith (match found with Some ef => ef | None => filename end)
                     ".json" = true).
  { destruct found as [ ef | ] eqn:Hfound; [ | exact Hsuffix ].
    subst found. destruct (truthy project_id); [ | discriminate ].
    apply scan_existing_listed in Hfound.
    pose proof (Hstore mode files Hfiles) as Hall.
    rewrite Forall_forall in Hall. exact (Hall ef Hfound). }
  destruct (store_credential mode _ credential s) as [ [ [] | ] s1 ] eqn:Hw;
    [ | discriminate ].
  injection Hrun as <- <-. cbn [upd_filename upd_id].
  repeat split; trivial. exists mode, credential. exact Hw.
Qed.

End Dedup.

Section DedupContract.

Context {S : Type} {store : Store S} {library : Library}
        {contract : OverwriteByFilename S}.



End DedupContract.

(** The store in memory honours the writers' contract. *)
Lemma find_put (f : string) (c : value) (p : list (string * MemStore.entry)) :
  exists e, MemStore.find f (MemStore.put f c p) = Some e
            /\ MemStore.credential e = Return c.
Proof.
  induction p as [ | [f' e] p IH ]; cbn [MemStore.put].
  - cbn [MemStore.find]. rewrite String.eqb_refl. eauto.
  - destruct (String.eqb_spec f' f) as [ -> | Hne ]; cbn [MemStore.find].
    + rewrite String.eqb_refl. eauto.
    + destruct (String.eqb_spec f' f); [ contradiction | exact IH ].
Qed.

#[global] Instance memstore_overwrites : OverwriteByFilename MemStore.t.
Proof.
  split; intros f c s; eexists; (split; [ reflexivity | ]);
    cbn; unfold MemStore.read_credential, MemStore.partition; cbn;
    destruct (find_put f c (MemStore.geminicli s)) as (e1 & H1 & C1);
    destruct (find_put f c (MemStore.antigravity s)) as (e2 & H2 & C2);
    rewrite ?H1, ?H2; assumption.
Qed.

(** In the store in memory the filename invariant is kept by every
    intake request, so it holds in every store the intake path builds
    from the empty one. *)
Lemma put_suffixed (f : string) (c : value) (p : list (string * MemStore.entry)) :
  suffixed f ->
  Forall suffixed (map fst p) ->
  Forall suffixed (map fst (MemStore.put f c p)).
Proof.
  intros Hf. induction p as [ | [f' e] p IH ]; cbn [MemStore.put map fst]; intros Hp.
  - repeat constructor. exact Hf.
  - inversion Hp as [ | ? ? Hhead Htail ]; subst.
    destruct (f' =? f)%string; cbn [map fst]; constructor; auto.
Qed.

Lemma memstore_well_named (s : MemStore.t) :
  well_named s <->
  Forall suffixed (map fst (MemStore.geminicli s))
  /\ Forall suffixed (map fst (MemStore.antigravity s)).
Proof.
  unfold well_named. cbn [list_credentials MemStore.store].
  unfold MemStore.listing, MemStore.partition. split.
  - intros H. split.
    + apply (H "geminicli"). reflexivity.
    + apply (H "antigravity"). reflexivity.
  - intros [Hg Ha] mode files.
    destruct (mode =? "antigravity")%string; intros [= <-]; assumption.
Qed.

Lemma empty_well_named : well_named MemStore.empty.
Proof. apply memstore_well_named. split; constructor. Qed.

Lemma store_credential_well_named (mode filename : string) (credential : value)
  (s : MemStore.t) :
  well_named s ->
  suffixed filename ->
  well_named (snd (store_credential mode filename credential s)).
Proof.
  rewrite !memstore_well_named. intros [Hg Ha] Hf. unfold store_credential.
  destruct (mode =? "antigravity")%string;
    cbn [add_credential add_antigravity_credential MemStore.store snd
         MemStore.write_geminicli MemStore.write_antigravity
         MemStore.geminicli MemStore.antigravity];
    split; trivial; now apply put_suffixed.
Qed.

(** Every run of [update_token] either leaves the store as it was and
    raises, or passed the guard and the normalizer, listed the mode's
    filenames and called the mode's writer once, on the normalizer's
    filename or on a listed one. *)
Lemma update_token_inv {S : Type} {store : Store S} {library : Library}
  (secret : string) (ts : Z) (request : Request) (s s' : S)
  (o : outcome UpdateResponse) :
  update_token secret ts request s = (o, s') ->
  (s' = s /\ exists e, o = Raise e)
  \/ exists body credential mode filename files final updated w,
       intake_guard secret request = Return body
       /\ normalize ts body = Return (credential, mode, filename)
       /\ list_credentials mode s = Return files
       /\ ((final = filename /\ updated = false) \/ (In final files /\ updated = true))
       /\ store_credential mode final credential s = (w, s')
       /\ o = match w with
              | Return _ =>
                  Return {| upd_success := true;
                            upd_message :=
                              "凭证已" ++ (if updated then "更新" else "创建");
                            upd_filename := final;
                            upd_action := if updated then "updated" else "created";
                            upd_id := final |}
              | Raise e => Raise e
              end.
Proof.
  intros Hrun.
  destruct (intake_guard secret request) as [ body | e ] eqn:Hg.
  2:{ rewrite (update_token_guard_raises _ _ _ _ _ Hg) in Hrun.
      injection Hrun as <- <-. left. eauto. }
  destruct (normalize ts body) as [ [[credential mode] filename] | e ] eqn:Hn.
  2:{ rewrite (update_token_normalize_raises _ _ _ _ _ _ Hg Hn) in Hrun.
      injection Hrun as <- <-. left. eauto. }
  rewrite (update_token_after_normalize _ _ _ _ _ _ _ _ Hg Hn) in Hrun.
  destruct (list_credentials mode s) as [ files | e ] eqn:Hfiles.
  2:{ injection Hrun as <- <-. left. eauto. }
  destruct (py_get credential "project_id" (VStr "")) as [ project_id | e ].
  2:{ injection Hrun as <- <-. left. eauto. }
  cbv zeta in Hrun. right.
  destruct (if truthy project_id then scan_existing mode project_id s files else None)
    as [ ef | ] eqn:Hfound.
  - assert (Hin : In ef files).
    { destruct (truthy project_id); [ | discriminate ].
      eapply scan_existing_listed; eauto. }
    destruct (store_credential mode ef credential s) as [ w s1 ] eqn:Hw.
    exists body, credential, mode, filename, files, ef, true, w.
    destruct w; injection Hrun as <- <-; repeat split; auto.
  - destruct (store_credential mode filename credential s) as [ w s1 ] eqn:Hw.
    exists body, credential, mode, filename, files, filename, false, w.
    destruct w; injection Hrun as <- <-; repeat split; auto.
Qed.

(** X17.  In the store in memory, every intake request, answered or
    not, keeps the filename invariant: when every listed filename ends
    with [".json"] before the request, so does every listed filename
    after it. *)
Lemma update_token_well_named {library : Library} (secret : string) (ts : Z)
  (request : Request) (s : MemStore.t) :
  well_named s ->
  well_named (snd (update_token secret ts request s)).
Proof.
  intros Hs.
  destruct (update_token secret ts request s) as [ o s' ] eqn:Hrun. cbn [snd].
  destruct (update_token_inv _ _ _ _ _ _ Hrun)
    as [ [-> _] | (body & credential & mode & filename & files & final & updated & w
                   & _ & Hn & Hfiles & Hfinal & Hw & _) ]; [ exact Hs | ].
  replace s' with (snd (store_credential mode final credential s))
    by (rewrite Hw; reflexivity).
  apply store_credential_well_named; [ exact Hs | ].
  destruct Hfinal as [ [-> _] | [Hin _] ].
  - exact (proj2 (normalize_returns _ _ _ _ _ Hn)).
  - pose proof (Hs mode files Hfiles) as Hall. rewrite Forall_forall in Hall. auto.
Qed.

(** ** The refresh-state evaluator *)

Section Query.

Context {S : Type} {store : Store S} {library : Library}.

Lemma needs_refresh_of_falsy (now : Z) (cred : value) :
  truthy cred = false -> needs_refresh_of now cred = Return false.
Proof. intros H. unfold needs_refresh_of. rewrite H. reflexivity. Qed.


Lemma needs_refresh_of_dict (now : Z) (d : list (string * value)) :
  d <> [] ->
  exists b, needs_refresh_of now (VDict d) = Return b
            /\ (b = true <-> due now (read_expiry d)).
Proof.
  intros Hd. unfold needs_refresh_of, read_expiry.
  assert (Ht : truthy (VDict d) = true) by (destruct d; [ contradiction | reflexivity ]).
  rewrite Ht, py_get_dict. cbn [bind]. unfold dict_get.
  destruct (lookup "expiry" d) as [ v | ]; cbn [truthy String.eqb negb].
  2:{ exists true. split; [ reflexivity | ]. split; [ intros _; exact I | reflexivity ]. }
  destruct (truthy v) eqn:Hv.
  2:{ exists true. split; [ reflexivity | ]. split; [ intros _; exact I | reflexivity ]. }
  unfold expiry_check, try_except.
  destruct v as [ | | | | text | | ];
    try (exists true; split; [ reflexivity | split; [ intros _; exact I | reflexivity ] ]).
  cbn [py_replace bind].
  destruct (fromisoformat (replace text "Z" "+00:00")) as [ dt | ]; cbn [bind].
  2:{ exists true. split; [ reflexivity | ]. split; [ intros _; exact I | reflexivity ]. }
  unfold expires_within_300s. destruct (aware dt).
  - eexists. split; [ reflexivity | ]. cbn [due]. apply Z.ltb_lt.
  - exists true. split; [ reflexivity | ]. split; [ intros _; exact I | reflexivity ].
Qed.

Lemma needs_refresh_of_returns (now : Z) (cred : value) (b : bool) :
  needs_refresh_of now cred = Return b ->
  b = true <-> exists d, cred = VDict d /\ d <> [] /\ due now (read_expiry d).
Proof.
  intros H. destruct (truthy cred) eqn:Ht.
  - destruct cred as [ | | | | | | d ];
      try (unfold needs_refresh_of in H; rewrite Ht in H; discriminate H).
    assert (Hd : d <> []) by (intros ->; discriminate Ht).
    destruct (needs_refresh_of_dict now d Hd) as (b' & Hb & Hiff).
    rewrite Hb in H. injection H as ->. rewrite Hiff. split.
    + intros Hdue. exists d. auto.
    + intros (d' & [= <-] & _ & Hdue). exact Hdue.
  - rewrite (needs_refresh_of_falsy now cred Ht) in H. injection H as <-. split.
    + discriminate.
    + intros (d & -> & Hd & _). destruct d; [ contradiction | discriminate Ht ].
Qed.

(** What a summary was computed from. *)
Lemma token_status_returns (now : Z) (mode f : string) (s : S) (t : TokenStatus) :
  token_status now mode f s = Return t ->
  exists state cred,
    get_credential_state f mode s = Return state
    /\ get_credential f mode s = Return cred
    /\ tok_filename t = f
    /\ state_field state "user_email" (VStr "") = Return (tok_email t)
    /\ needs_refresh_of now cred = Return (tok_needs_refresh t).
Proof.
  unfold token_status.
  destruct (get_credential_state f mode s) as [ state | ] eqn:Hstate; cbn [bind];
    [ | discriminate ].
  destruct (get_credential f mode s) as [ cred | ] eqn:Hcred; cbn [bind];
    [ | discriminate ].
  destruct (state_field state "user_email" (VStr "")) as [ email | ] eqn:Hemail;
    cbn [bind]; [ | discriminate ].
  destruct (state_field state "disabled" (VBool false)) as [ disabled | ]; cbn [bind];
    [ | discriminate ].
  destruct (state_field state "error_codes" (VList [])) as [ codes | ]; cbn [bind];
    [ | discriminate ].
  destruct (needs_refresh_of now cred) as [ b | ] eqn:Hneeds; cbn [bind];
    [ | discriminate ].
  intros [= <-]. exists state, cred. cbn. auto.
Qed.

(** A summary comes from a listed filename, evaluated at the clock value
    of its position; a listed filename whose evaluation returns is
    summarised. *)
Lemma collect_tokens_In (clock : nat -> Z) (mode : string) (s : S)
  (files : list string) (i : nat) (t : TokenStatus) :
  In t (collect_tokens clock i mode s files) <->
  exists j f, nth_error files j = Some f
              /\ token_status (clock (i + j)%nat) mode f s = Return t.
Proof.
  revert i. induction files as [ | f files IH ]; intros i; cbn [collect_tokens].
  - split; [ intros [] | ]. intros (j & g & H & _). destruct j; discriminate.
  - assert (Hrest : In t (collect_tokens clock (Datatypes.S i) mode s files) <->
                    exists j g, nth_error files j = Some g
                                /\ token_status (clock (i + Datatypes.S j)%nat) mode g s
                                   = Return t).
    { rewrite IH. split; intros (j & g & H1 & H2); exists j, g;
        (split; [ exact H1 | ]); [ rewrite Nat.add_succ_r | rewrite Nat.add_succ_r in H2 ];
        exact H2. }
    destruct (token_status (clock i) mode f s) as [ t0 | e ] eqn:Hf.
    + cbn [In]. rewrite Hrest. split.
      * intros [ <- | (j & g & H1 & H2) ].
        -- exists O, f. rewrite Nat.add_0_r. auto.
        -- exists (Datatypes.S j), g. auto.
      * intros (j & g & H1 & H2). destruct j as [ | j ].
        -- injection H1 as <-. rewrite Nat.add_0_r, Hf in H2. injection H2 as <-. now left.
        -- right. exists j, g. auto.
    + rewrite Hrest. split.
      * intros (j & g & H1 & H2). exists (Datatypes.S j), g. auto.
      * intros (j & g & H1 & H2). destruct j as [ | j ].
        -- injection H1 as <-. rewrite Nat.add_0_r, Hf in H2. discriminate.
        -- exists j, g. auto.
Qed.

Lemma renderable_VList (items : list value) :
  renderable (VList items) = forallb renderable items.
Proof.
  induction items as [ | x items IH ]; [ reflexivity | ].
  cbn [forallb]. rewrite <- IH. reflexivity.
Qed.

Lemma renderable_token_content (t : TokenStatus) :
  renderable (token_content t) = renders t.
Proof.
  unfold renders, token_content. cbn [renderable andb].
  now rewrite andb_true_r.
Qed.

Lemma renderable_token_contents (tokens : list TokenStatus) :
  forallb renderable (map token_content tokens) = forallb renders tokens.
Proof.
  induction tokens as [ | t tokens IH ]; [ reflexivity | ].
  cbn [map forallb]. now rewrite renderable_token_content, IH.
Qed.

Lemma renderable_emails (tokens : list TokenStatus) :
  forallb renders tokens = true ->
  forallb renderable (needs_refresh_emails tokens) = true.
Proof.
  induction tokens as [ | t tokens IH ]; [ reflexivity | ].
  cbn [forallb needs_refresh_emails]. rewrite andb_true_iff. intros [Ht Hrest].
  destruct (tok_needs_refresh t && tok_is_active t && truthy (tok_email t)); [ | auto ].
  cbn [forallb]. rewrite (IH Hrest), andb_true_r.
  unfold renders in Ht. now apply andb_true_iff in Ht.
Qed.

(** The content of a query response is rendered exactly when the two
    store fields of every summary are. *)
Lemma renderable_check_content (tokens : list TokenStatus) :
  renderable (check_content {| chk_success := true;
                               chk_tokens := tokens;
                               chk_needs_refresh_emails := needs_refresh_emails tokens |})
  = forallb renders tokens.
Proof.
  unfold check_content. cbn [chk_success chk_tokens chk_needs_refresh_emails].
  change (renderable (VDict ?l)) with
    ((fix all (fields : list (string * value)) : bool :=
        match fields with
        | [] => true
        | (_, x) :: rest => renderable x && all rest
        end) l).
  cbv beta iota. rewrite !renderable_VList, andb_true_r.
  change (renderable (VBool true)) with true. cbn [andb].
  rewrite renderable_token_contents.
  destruct (forallb renders tokens) eqn:Hr; [ | reflexivity ].
  now rewrite renderable_emails.
Qed.

(** The content of an intake response holds strings and a boolean, which
    the renderer always writes out: line 165 cannot raise. *)
Lemma update_content_renders (resp : UpdateResponse) :
  render (update_content resp) = Return tt.
Proof. reflexivity. Qed.

Lemma check_tokens_after_guard (secret : string) (clock : nat -> Z) (request : Request)
  (body : value) (s : S) :
  query_guard secret request = Return body ->
  check_tokens secret clock request s =
  match resolve_mode body with
  | Raise e => (Raise e, s)
  | Return mode =>
      match list_credentials mode s with
      | Raise e => (Raise e, s)
      | Return files =>
          let tokens := collect_tokens clock 0 mode s files in
          if forallb renders tokens
          then (Return {| chk_success := true;
                          chk_tokens := tokens;
                          chk_needs_refresh_emails := needs_refresh_emails tokens |}, s)
          else (Raise ValueError, s)
      end
  end.
Proof.
  intros Hg. unfold check_tokens, bindM, pure, read, retM. rewrite Hg.
  destruct (resolve_mode body) as [ mode | ]; [ | reflexivity ].
  destruct (list_credentials mode s) as [ files | ]; [ | reflexivity ].
  cbv zeta. unfold render. rewrite renderable_check_content.
  destruct (forallb renders (collect_tokens clock 0 mode s files)); reflexivity.
Qed.

Lemma check_tokens_returns (secret : string) (clock : nat -> Z) (request : Request)
  (s s' : S) (resp : CheckResponse) :
  check_tokens secret clock request s = (Return resp, s') ->
  exists body mode files,
    query_guard secret request = Return body
    /\ resolve_mode body = Return mode
    /\ list_credentials mode s = Return files
    /\ s' = s
    /\ chk_tokens resp = collect_tokens clock 0 mode s files
    /\ chk_needs_refresh_emails resp = needs_refresh_emails (chk_tokens resp).
Proof.
  intros Hrun.
  destruct (query_guard secret request) as [ body | e ] eqn:Hg.
  2:{ rewrite (check_tokens_guard_raises _ _ _ _ _ Hg) in Hrun. discriminate. }
  rewrite (check_tokens_after_guard _ _ _ _ _ Hg) in Hrun.
  destruct (resolve_mode body) as [ mode | ] eqn:Hm; [ | discriminate ].
  destruct (list_credentials mode s) as [ files | ] eqn:Hf; [ | discriminate ].
  cbv zeta in Hrun.
  destruct (forallb renders (collect_tokens clock 0 mode s files)); [ | discriminate ].
  injection Hrun as <- <-. exists body, mode, files. repeat split; trivial.
Qed.


Lemma needs_refresh_emails_filter (tokens : list TokenStatus) :
  needs_refresh_emails tokens = map tok_email (filter reported tokens).
Proof.
  induction tokens as [ | t tokens IH ]; [ reflexivity | ].
  cbn [needs_refresh_emails filter]. unfold reported at 1.
  destruct (tok_needs_refresh t && tok_is_active t && truthy (tok_email t));
    cbn [map]; rewrite IH; reflexivity.
Qed.

(** C1 (amended).  Every summary of an authenticated query comes from a
    listed filename whose record the store returned, and its
    [needs_refresh] is true exactly when that record is present and not
    empty and its [expiry] is missing or falsy, is not a string or fails
    to parse (after every ["Z"] is replaced by ["+00:00"]), parses to a
    timestamp without UTC offset, or parses to an instant less than 300
    seconds after the UTC time read while that record is evaluated; for
    an absent or empty record [needs_refresh] is false. *)
Theorem needs_refresh_iff_due (secret : string) (clock : nat -> Z) (request : Request)
  (s s' : S) (resp : CheckResponse) (t : TokenStatus) :
  check_tokens secret clock request s = (Return resp, s') ->
  In t (chk_tokens resp) ->
  exists mode files i cred,
    list_credentials mode s = Return files
    /\ nth_error files i = Some (tok_filename t)
    /\ get_credential (tok_filename t) mode s = Return cred
    /\ (tok_needs_refresh t = true <->
        exists d, cred = VDict d /\ d <> [] /\ due (clock i) (read_expiry d)).
Proof.
  intros Hrun Hin.
  destruct (check_tokens_returns _ _ _ _ _ _ Hrun)
    as (body & mode & files & _ & _ & Hfiles & _ & Htokens & _).
  rewrite Htokens in Hin. apply collect_tokens_In in Hin.
  destruct Hin as (i & f & Hnth & Hstatus). cbn [Nat.add] in Hstatus.
  destruct (token_status_returns _ _ _ _ _ Hstatus)
    as (state & cred & _ & Hcred & Hname & _ & Hneeds).
  exists mode, files, i, cred. rewrite Hname.
  repeat split; trivial; now apply needs_refresh_of_returns.
Qed.

(** C5.  The [needs_refresh_emails] of a query response are the emails
    of the summaries of its [tokens] list that have [needs_refresh] and
    [is_active] true and a non-empty email, in the order of that list,
    one entry per such summary even when emails repeat. *)
Theorem needs_refresh_emails_exact (secret : string) (clock : nat -> Z)
  (request : Request) (s s' : S) (resp : CheckResponse) :
  check_tokens secret clock request s = (Return resp, s') ->
  chk_needs_refresh_emails resp = map tok_email (filter reported (chk_tokens resp)).
Proof.
  intros Hrun.
  destruct (check_tokens_returns _ _ _ _ _ _ Hrun)
    as (_ & _ & _ & _ & _ & _ & _ & _ & Hemails).
  rewrite Hemails. apply needs_refresh_emails_filter.
Qed.



End Query.

(** ** Worked examples *)

(** C1, as stated, fails.  In the sample store the record of
    ["absent.json"] is absent and that of ["empty.json"] is the empty
    object: neither has an [expiry], and both summaries have
    [needs_refresh] false.  The [expiry] of ["naive.json"] parses, to a
    timestamp in the year 2999 without offset, and its summary has
    [needs_refresh] true. *)
Lemma needs_refresh_outside_the_rule :
  exists resp t_absent t_empty t_naive rest,
    fst (check_tokens "S" Sample.clock Sample.query Sample.store) = Return resp
    /\ chk_tokens resp = t_absent :: t_empty :: t_naive :: rest
    /\ tok_filename t_absent = "absent.json"
    /\ get_credential "absent.json" "geminicli" Sample.store = Return VNone
    /\ tok_needs_refresh t_absent = false
    /\ tok_filename t_empty = "empty.json"
    /\ get_credential "empty.json" "geminicli" Sample.store = Return (VDict [])
    /\ lookup "expiry" [] = None
    /\ tok_needs_refresh t_empty = false
    /\ tok_filename t_naive = "naive.json"
    /\ (exists d, get_credential "naive.json" "geminicli" Sample.store = Return (VDict d)
                  /\ lookup "expiry" d = Some (VStr "2999-01-01T00:00:00"))
    /\ fromisoformat "2999-01-01T00:00:00"
       = Some {| microseconds := 32472144000 * 1000000; aware := false |}
    /\ 32472144000 * 1000000 - Sample.now >= 300 * 1000000
    /\ tok_needs_refresh t_naive = true.
Proof.
  do 5 eexists. split; [ vm_compute; reflexivity | ].
  cbn [chk_tokens]. split; [ reflexivity | ].
  repeat split; try reflexivity.
  - eexists. split; reflexivity.
  - vm_compute. discriminate.
Qed.

(** The window at work: 200 seconds ahead is due, one hour ahead is not,
    and the entry whose record cannot be read is left out. *)
Example expiry_window :
  match fst (check_tokens "S" Sample.clock Sample.query Sample.store) with
  | Return resp =>
      map (fun t => (tok_filename t, tok_needs_refresh t)) (chk_tokens resp)
  | Raise _ => []
  end
  = [("absent.json", false); ("empty.json", false); ("naive.json", true);
     ("soon.json", true); ("again.json", true); ("later.json", false)].
Proof. vm_compute. reflexivity. Qed.

(** The summary of ["soon.json"], whose record expires 200 seconds after
    the clock value. *)
Lemma needs_refresh_iff_due_example :
  let t := {| tok_filename := "soon.json";
              tok_email := VStr "b@example.com";
              tok_is_active := true;
              tok_needs_refresh := true;
              tok_error_codes := VList [] |} in
  exists mode files i cred,
    list_credentials mode Sample.store = Return files
    /\ nth_error files i = Some (tok_filename t)
    /\ get_credential (tok_filename t) mode Sample.store = Return cred
    /\ (tok_needs_refresh t = true <->
        exists d, cred = VDict d /\ d <> [] /\ due (Sample.clock i) (read_expiry d)).
Proof.
  intros t.
  eapply (needs_refresh_iff_due "S" Sample.clock Sample.query Sample.store Sample.store).
  - vm_compute. reflexivity.
  - cbn [chk_tokens In]. do 3 right. left. reflexivity.
Defined.

(** The two records that are due and share an email are both reported. *)
Lemma needs_refresh_emails_exact_example :
  exists resp,
    check_tokens "S" Sample.clock Sample.query Sample.store = (Return resp, Sample.store)
    /\ chk_needs_refresh_emails resp = [VStr "b@example.com"; VStr "b@example.com"]
    /\ chk_needs_refresh_emails resp = map tok_email (filter reported (chk_tokens resp)).
Proof.
  eexists. split; [ vm_compute; reflexivity | ]. split; [ reflexivity | ].
  apply (needs_refresh_emails_exact "S" Sample.clock Sample.query Sample.store Sample.store).
  vm_compute. reflexivity.
Defined.


(** A nested credential without [refresh_token]. *)
Lemma missing_identity_is_400_example :
  exists detail,
    update_token "S" 1700000000
      (Sample.push [("credential", VDict [("client_id", VStr "c1")])]) Sample.store
    = (Raise (HTTPException 400 detail), Sample.store).
Proof.
  apply (missing_identity_is_400 "S" 1700000000
           (Sample.push [("credential", VDict [("client_id", VStr "c1")])])
           (VDict [("credential", VDict [("client_id", VStr "c1")])])
           [("client_id", VStr "c1")] Sample.store); reflexivity.
Defined.

(** A flattened body without [refresh_token] is refused the same way. *)
Example flattened_without_refresh_token :
  update_token "S" 1700000000
    (Sample.push [("client_id", VStr "c1"); ("project_id", VStr "p1")]) Sample.store
  = (Raise (HTTPException 400 "凭证需要包含 client_id 和 refresh_token"), Sample.store).
Proof. reflexivity. Qed.

(** An empty nested credential next to flattened fields. *)
Lemma falsy_nested_credential_is_absent_example :
  let fields := [("credential", VDict []); ("client_id", VStr "c1");
                 ("refresh_token", VStr "r1")] in
  let request := {| json := Some (VDict fields); authorization := Some "Bearer S" |} in
  let request' := {| json := Some (VDict (remove_key "credential" fields));
                     authorization := Some "Bearer S" |} in
  extract_credential (VDict fields) = Return (VDict (flatten_fields fields))
  /\ update_token "S" 1700000000 request Sample.store
     = update_token "S" 1700000000 request' Sample.store
  /\ (flatten_fields fields = [] ->
      intake_guard "S" request = Return (VDict fields) ->
      update_token "S" 1700000000 request Sample.store =
      (Raise (HTTPException 400 "缺少凭证数据"), Sample.store)).
Proof.
  apply (falsy_nested_credential_is_absent "S" 1700000000 (Some "Bearer S")
           [("credential", VDict []); ("client_id", VStr "c1");
            ("refresh_token", VStr "r1")]
           (VDict []) Sample.store); reflexivity.
Defined.

(** An empty nested credential and nothing else. *)
Example empty_credential_only :
  update_token "S" 1700000000 (Sample.push [("credential", VDict [])]) Sample.store
  = (Raise (HTTPException 400 "缺少凭证数据"), Sample.store).
Proof. reflexivity. Qed.

Lemma sample_store_well_named : well_named Sample.store.
Proof.
  intros mode files. cbn [list_credentials MemStore.store].
  unfold MemStore.listing, MemStore.partition.
  destruct (mode =? "antigravity")%string; intros [= <-]; repeat constructor.
Qed.

(** A filename supplied without the suffix, for a project the store does
    not hold. *)
Lemma returned_filename_has_suffix_example :
  exists resp s',
    update_token "S" 1700000000
      (Sample.push (("filename", VStr "mine") :: ("project_id", VStr "p9")
                    :: ("client_id", VStr "c1") :: ("refresh_token", VStr "r1") :: []))
      Sample.store = (Return resp, s')
    /\ upd_filename resp = "mine.json"
    /\ endswith (upd_filename resp) ".json" = true
    /\ upd_id resp = upd_filename resp
    /\ exists mode credential,
         store_credential mode (upd_filename resp) credential Sample.store
         = (Return tt, s').
Proof.
  do 2 eexists. split; [ vm_compute; reflexivity | ]. split; [ reflexivity | ].
  apply (returned_filename_has_suffix "S" 1700000000
           (Sample.push (("filename", VStr "mine") :: ("project_id", VStr "p9")
                         :: ("client_id", VStr "c1") :: ("refresh_token", VStr "r1") :: []))
           Sample.store).
  - exact sample_store_well_named.
  - vm_compute. reflexivity.
Defined.

(** A derived filename. *)
Example derived_filename :
  fst (update_token "S" 1700000000
         (Sample.push [("name", VStr "work"); ("project_id", VStr "p9");
                       ("client_id", VStr "c1"); ("refresh_token", VStr "r1")])
         Sample.store)
  = Return {| upd_success := true;
              upd_message := "凭证已创建";
              upd_filename := "work-p9-1700000000.json";
              upd_action := "created";
              upd_id := "work-p9-1700000000.json" |}.
Proof. reflexivity. Qed.


(** The first of the two is the one overwritten. *)
Example first_match_wins :
  fst (update_token "S" 1700000000 (Sample.push Sample.payload_p1) Sample.store)
  = Return {| upd_success := true;
              upd_message := "凭证已更新";
              upd_filename := "soon.json";
              upd_action := "updated";
              upd_id := "soon.json" |}.
Proof. reflexivity. Qed.

(** * Further properties of the routes *)

(** ** Intake: mode, filename and candidate *)

(** X1.  The mode of a request is ["antigravity"] exactly when the body's
    [mode] field is that string; a missing field, another string or a
    value that is not a string gives ["geminicli"]. *)
Theorem resolve_mode_collapses (fields : list (string * value)) :
  (lookup "mode" fields = Some (VStr "antigravity") ->
   resolve_mode (VDict fields) = Return "antigravity")
  /\ (lookup "mode" fields <> Some (VStr "antigravity") ->
      resolve_mode (VDict fields) = Return "geminicli").
Proof.
  unfold resolve_mode. rewrite py_get_dict. cbn [bind]. unfold dict_get. split.
  - intros ->. reflexivity.
  - intros Hne. destruct (lookup "mode" fields) as [ v | ]; [ | reflexivity ].
    destruct (Py.eqb v (VStr "geminicli")); [ reflexivity | ].
    destruct (Py.eqb v (VStr "antigravity")) eqn:He; [ | reflexivity ].
    apply eqb_VStr in He. subst v. now destruct Hne.
Qed.

Lemma str_of_int_injective (a b : Z) : str_of_int a = str_of_int b -> a = b.
Proof.
  unfold str_of_int. intros H.
  apply (f_equal NilEmpty.int_of_string) in H. rewrite !NilEmpty.isi in H.
  injection H as H. apply (f_equal Z.of_int) in H. now rewrite !DecimalZ.of_to in H.
Qed.

Lemma append_cancel_l (p a b : string) : p ++ a = p ++ b -> a = b.
Proof.
  induction p as [ | c p IH ]; cbn [append]; [ trivial | ].
  intros [= H]. auto.
Qed.

Lemma append_length (a b : string) :
  String.length (a ++ b) = (String.length a + String.length b)%nat.
Proof. induction a as [ | c a IH ]; cbn [append String.length]; [ reflexivity | now rewrite IH ]. Qed.

Lemma append_cancel_r (a b q : string) : a ++ q = b ++ q -> a = b.
Proof.
  revert b. induction a as [ | c a IH ]; intros b H; destruct b as [ | d b ];
    cbn [append] in H.
  - reflexivity.
  - exfalso. apply (f_equal String.length) in H.
    cbn [String.length] in H. rewrite append_length in H. lia.
  - exfalso. apply (f_equal String.length) in H.
    cbn [String.length] in H. rewrite append_length in H. lia.
  - injection H as -> H. f_equal. auto.
Qed.

Lemma endswith_json_nonempty (f : string) :
  endswith f ".json" = true -> (f =? "")%string = false.
Proof. destruct f; [ discriminate | reflexivity ]. Qed.

Section IntakeMore.

Context {S : Type} {store : Store S} {library : Library}.



(** X3.  Whatever the request and the outcome, [update_token] leaves the
    store as it was unless the request passed the guard and the
    validation; the store then differs by one call of the mode's writer,
    with the validated candidate, under the normalizer's filename or a
    listed one. *)
Theorem update_token_writes_only_when_valid (secret : string) (ts : Z)
  (request : Request) (s s' : S) (o : outcome UpdateResponse) :
  update_token secret ts request s = (o, s') ->
  s' = s
  \/ exists body credential mode filename final,
       intake_guard secret request = Return body
       /\ normalize ts body = Return (credential, mode, filename)
       /\ (final = filename
           \/ exists files, list_credentials mode s = Return files /\ In final files)
       /\ s' = snd (store_credential mode final credential s).
Proof.
  intros Hrun.
  destruct (update_token_inv _ _ _ _ _ _ Hrun)
    as [ [-> _] | (body & credential & mode & filename & files & final & updated & w
                   & Hg & Hn & Hfiles & Hfinal & Hw & _) ]; [ now left | right ].
  exists body, credential, mode, filename, final. repeat split; trivial.
  - destruct Hfinal as [ [-> _] | [Hin _] ]; [ now left | right; eauto ].
  - rewrite Hw. reflexivity.
Qed.

Lemma resolve_mode_dict_returns (fields : list (string * value)) :
  exists mode, resolve_mode (VDict fields) = Return mode.
Proof. unfold resolve_mode. rewrite py_get_dict. cbn [bind]. eauto. Qed.

(** X4.  An authenticated push with a valid candidate whose [filename]
    field is neither falsy nor a string (a number, a list, an object)
    leaves the handler with an [AttributeError] ([filename.endswith]),
    and nothing is written. *)
Theorem non_string_filename_unhandled (secret : string) (ts : Z) (request : Request)
  (fields : list (string * value)) (credential v : value) (s : S) :
  intake_guard secret request = Return (VDict fields) ->
  extract_credential (VDict fields) = Return credential ->
  validate_credential credential = Return tt ->
  lookup "filename" fields = Some v ->
  truthy v = true ->
  (forall name, v <> VStr name) ->
  update_token secret ts request s = (Raise AttributeError, s).
Proof.
  intros Hg He Hv Hl Ht Hns.
  apply update_token_normalize_raises with (body := VDict fields); trivial.
  unfold normalize. rewrite He. cbn [bind]. rewrite Hv. cbn [bind].
  destruct (resolve_mode_dict_returns fields) as [mode ->]. cbn [bind].
  unfold resolve_filename. rewrite py_get_dict. unfold dict_get. rewrite Hl.
  cbn [bind]. rewrite Ht. cbn [negb bind].
  destruct v; try reflexivity. now destruct (Hns s0).
Qed.

Lemma endswith_app_r (a b suffix : string) :
  endswith b suffix = true -> endswith (a ++ b) suffix = true.
Proof.
  intros H. induction a as [ | c a IH ]; [ exact H | ].
  cbn [append endswith]. rewrite IH. apply orb_true_r.
Qed.

(** The filename derived when the body supplies none. *)
Lemma resolve_filename_derived (ts : Z) (fields : list (string * value))
  (credential project_id : value) :
  truthy (dict_get fields "filename" (VStr "")) = false ->
  py_get credential "project_id" (VStr "plugin") = Return project_id ->
  resolve_filename ts (VDict fields) credential =
  Return ((if truthy (dict_get fields "name" (VStr ""))
           then py_str (dict_get fields "name" (VStr "")) ++ "-" else "")
          ++ py_str project_id ++ "-" ++ str_of_int ts ++ ".json").
Proof.
  intros Hf Hp. unfold resolve_filename. rewrite !py_get_dict. cbn [bind].
  rewrite Hf, Hp. cbn [negb bind py_endswith].
  match goal with
  | |- context [ endswith ?name ".json" ] =>
      assert (Hs : endswith name ".json" = true)
        by (do 2 apply endswith_app_r; apply (endswith_app_r "-"); apply endswith_app);
      rewrite Hs
  end.
  reflexivity.
Qed.

(** X5.  When the body supplies no filename, the filenames derived for
    the same body and candidate at two different clock readings (whole
    seconds) are different. *)
Theorem derived_filenames_differ (ts1 ts2 : Z)
  (fields : list (string * value)) (credential : value) (f1 f2 : string) :
  truthy (dict_get fields "filename" (VStr "")) = false ->
  ts1 <> ts2 ->
  resolve_filename ts1 (VDict fields) credential = Return f1 ->
  resolve_filename ts2 (VDict fields) credential = Return f2 ->
  f1 <> f2.
Proof.
  intros Hf Hts H1 H2 Heq. subst f2. apply Hts.
  destruct (py_get credential "project_id" (VStr "plugin")) as [ project_id | e ] eqn:Hp.
  - rewrite (resolve_filename_derived ts1 _ _ _ Hf Hp) in H1.
    rewrite (resolve_filename_derived ts2 _ _ _ Hf Hp) in H2.
    rewrite <- H2 in H1. injection H1 as H1.
    do 2 apply append_cancel_l in H1. apply (append_cancel_l "-") in H1.
    apply append_cancel_r in H1. now apply str_of_int_injective.
  - unfold resolve_filename in H1. rewrite !py_get_dict in H1. cbn [bind] in H1.
    rewrite Hf, Hp in H1. discriminate H1.
Qed.

(** X6.  The filename a push returns can be supplied as the [filename]
    of a later push, whatever else that push holds: it is then used
    unchanged, without a second suffix. *)
Theorem returned_filename_is_stable (ts ts' : Z) (body credential credential' : value)
  (fields' : list (string * value)) (f : string) :
  resolve_filename ts body credential = Return f ->
  lookup "filename" fields' = Some (VStr f) ->
  resolve_filename ts' (VDict fields') credential' = Return f.
Proof.
  intros Hr Hl. apply resolve_filename_suffix in Hr.
  unfold resolve_filename. rewrite py_get_dict. unfold dict_get. rewrite Hl.
  cbn [bind truthy]. rewrite (endswith_json_nonempty f Hr).
  cbn [negb bind py_endswith]. rewrite Hr. reflexivity.
Qed.

Lemma normalize_inv (ts : Z) (body credential : value) (mode filename : string) :
  normalize ts body = Return (credential, mode, filename) ->
  extract_credential body = Return credential
  /\ validate_credential credential = Return tt
  /\ resolve_mode body = Return mode
  /\ resolve_filename ts body credential = Return filename.
Proof.
  unfold normalize.
  destruct (extract_credential body) as [ c | ]; cbn [bind]; [ | discriminate ].
  destruct (validate_credential c) as [ [] | ] eqn:Hv; cbn [bind]; [ | discriminate ].
  destruct (resolve_mode body) as [ m | ]; cbn [bind]; [ | discriminate ].
  destruct (resolve_filename ts body c) as [ f | ] eqn:Hf; cbn [bind]; [ | discriminate ].
  intros [= <- <- <-]. repeat split; assumption.
Qed.

(** A push that is answered wrote its candidate under the returned
    filename. *)
Lemma update_token_returns_inv (secret : string) (ts : Z) (request : Request)
  (s s' : S) (resp : UpdateResponse) :
  update_token secret ts request s = (Return resp, s') ->
  exists body credential mode filename,
    intake_guard secret request = Return body
    /\ normalize ts body = Return (credential, mode, filename)
    /\ store_credential mode (upd_filename resp) credential s = (Return tt, s').
Proof.
  intros Hrun.
  destruct (update_token_inv _ _ _ _ _ _ Hrun)
    as [ [_ [e He]] | (body & credential & mode & filename & files & final & updated & w
                       & Hg & Hn & _ & _ & Hw & Ho) ]; [ discriminate He | ].
  exists body, credential, mode, filename. repeat split; trivial.
  destruct w as [ [] | e ]; [ | discriminate Ho ].
  injection Ho as ->. exact Hw.
Qed.

Lemma lookup_filter (keep : string * value -> bool) (k : string) (v : value)
  (d : list (string * value)) :
  lookup k d = Some v ->
  keep (k, v) = true ->
  lookup k (filter keep d) = Some v.
Proof.
  intros Hl Hk. induction d as [ | [k0 v0] d IH ]; [ discriminate | ].
  cbn [lookup] in Hl. cbn [filter].
  destruct (String.eqb_spec k0 k) as [ -> | Hne ].
  - injection Hl as ->. rewrite Hk. cbn [lookup]. now rewrite String.eqb_refl.
  - destruct (keep (k0, v0)); [ | auto ].
    cbn [lookup]. destruct (String.eqb_spec k0 k); [ contradiction | auto ].
Qed.

(** X7.  A flattened push that authenticates with the body's [token]
    field (no bearer header, no nested credential) stores the connection
    secret as the [token] field of the credential: ["token"] is both the
    field the secret is read from and a recognised credential field. *)
Theorem body_token_is_stored (secret : string) (ts : Z) (request : Request)
  (fields : list (string * value)) (s s' : S) (resp : UpdateResponse) :
  json request = Some (VDict fields) ->
  bearer request = None ->
  match lookup "credential" fields with
  | Some nested => truthy nested = false
  | None => True
  end ->
  update_token secret ts request s = (Return resp, s') ->
  exists mode c,
    lookup "token" c = Some (VStr secret)
    /\ store_credential mode (upd_filename resp) (VDict c) s = (Return tt, s').
Proof.
  intros Hj Hb Hnested Hrun.
  destruct (update_token_returns_inv _ _ _ _ _ _ Hrun)
    as (body & credential & mode & filename & Hg & Hn & Hw).
  destruct (intake_guard_returns _ _ _ Hg) as (fields' & -> & Hj' & Hacc).
  rewrite Hj in Hj'. injection Hj' as <-.
  destruct (normalize_inv _ _ _ _ _ Hn) as (He & _).
  rewrite (extract_credential_flat fields Hnested) in He. injection He as <-.
  exists mode, (flatten_fields fields). split; [ | exact Hw ].
  unfold presented_secret in Hacc. rewrite Hb in Hacc.
  destruct Hacc as (t & Ht & Hne & <-). unfold dict_get in Ht.
  destruct (lookup "token" fields) as [ v | ] eqn:Hl.
  - subst v. apply lookup_filter; [ exact Hl | ].
    cbn [fst snd truthy]. destruct (String.eqb_spec t ""); [ contradiction | reflexivity ].
  - injection Ht as <-. now destruct Hne.
Qed.

(** X8.  When the body carries a nested [credential] that is not falsy,
    that value is the payload stored, verbatim: recognised fields that
    the body also carries beside it are not merged in, and fields the
    flattened form would drop are kept. *)
Theorem nested_credential_is_stored_verbatim (secret : string) (ts : Z)
  (request : Request) (fields : list (string * value)) (nested : value)
  (s s' : S) (resp : UpdateResponse) :
  json request = Some (VDict fields) ->
  lookup "credential" fields = Some nested ->
  truthy nested = true ->
  update_token secret ts request s = (Return resp, s') ->
  exists mode,
    store_credential mode (upd_filename resp) nested s = (Return tt, s').
Proof.
  intros Hj Hl Ht Hrun.
  destruct (update_token_returns_inv _ _ _ _ _ _ Hrun)
    as (body & credential & mode & filename & Hg & Hn & Hw).
  destruct (intake_guard_returns _ _ _ Hg) as (fields' & -> & Hj' & _).
  rewrite Hj in Hj'. injection Hj' as <-.
  destruct (normalize_inv _ _ _ _ _ Hn) as (He & _).
  rewrite (extract_credential_nested fields nested Hl Ht) in He. injection He as <-.
  exists mode. exact Hw.
Qed.

End IntakeMore.

(** ** The guard, its helper and the status route *)

Ltac same_status :=
  split; intros [? H]; first [ discriminate H | injection H as <- _; eexists; reflexivity ].

Lemma accepted_bearer (request : Request) (fields : list (string * value))
  (secret : string) :
  (secret =? "")%string = false ->
  bearer request = Some secret ->
  accepted (presented_secret request fields) secret.
Proof.
  intros Hs Hb. unfold presented_secret. rewrite Hb. exists secret.
  repeat split. intros ->. discriminate Hs.
Qed.

Lemma verify_plugin_token_dict (secret : string) (request : Request)
  (fields : list (string * value)) :
  (secret =? "")%string = false ->
  json request = Some (VDict fields) \/ (json request = None /\ fields = []) ->
  _verify_plugin_token secret request =
  if token_rejected (presented_secret request fields) secret
  then Raise (HTTPException 401 "无效的连接 Token")
  else Return (presented_secret request fields).
Proof.
  intros Hs Hj. unfold _verify_plugin_token, presented_secret, bearer, header_authorization.
  rewrite Hs.
  assert (Hbody : try_except
                    (bind match json request with
                          | Some b => Return b
                          | None => Raise ValueError
                          end (fun body => py_get body "token" (VStr "")))
                    (Return (VStr ""))
                  = Return (dict_get fields "token" (VStr ""))).
  { destruct Hj as [ -> | [-> ->] ]; reflexivity. }
  destruct (authorization request) as [ a | ].
  - destruct (prefix "Bearer " a); [ reflexivity | ]. rewrite Hbody. reflexivity.
  - cbn [prefix]. rewrite Hbody. reflexivity.
Qed.

(** X9.  The helper [_verify_plugin_token] has three outcomes whatever
    the request: 503 when no secret is configured, the configured secret
    itself when the request presents it, and 401 otherwise; a body that
    does not decode or is not an object never makes it raise anything
    else. *)
Theorem verify_plugin_token_outcomes (secret : string) (request : Request) :
  (secret = ""
   /\ _verify_plugin_token secret request
      = Raise (HTTPException 503 "插件连接未配置 connection_token"))
  \/ (secret <> ""
      /\ (_verify_plugin_token secret request = Return (VStr secret)
          \/ _verify_plugin_token secret request
             = Raise (HTTPException 401 "无效的连接 Token"))).
Proof.
  unfold _verify_plugin_token.
  destruct (String.eqb_spec secret "") as [ -> | Hne ]; [ left; auto | right ].
  split; [ exact Hne | ].
  match goal with
  | |- context [ bind ?chosen _ ] =>
      assert (H : exists v, chosen = Return v);
      [ | destruct H as [v ->] ]
  end.
  { destruct (prefix "Bearer " (header_authorization request)); [ eauto | ].
    unfold try_except.
    match goal with |- exists v, match ?body with _ => _ end = _ => destruct body end; eauto. }
  cbn [bind]. destruct (token_rejected v secret) eqn:Hr; [ now right | left ].
  apply token_rejected_false in Hr. destruct Hr as (t & -> & _ & ->). reflexivity.
Qed.

(** X10.  On a request whose body decodes to an object, the guard
    inlined in [update_token] and the helper [_verify_plugin_token]
    decide alike: one lets the request through exactly when the other
    does, and they fail with the same status.  The same holds for the
    guard inlined in [check_tokens], also on a body that does not
    decode. *)
Theorem inline_guards_agree_with_helper (secret : string) (request : Request)
  (fields : list (string * value)) :
  (json request = Some (VDict fields) ->
   ((exists t, _verify_plugin_token secret request = Return t) <->
    intake_guard secret request = Return (VDict fields))
   /\ forall code, is_http code (_verify_plugin_token secret request) <->
                   is_http code (intake_guard secret request))
  /\ (json request = Some (VDict fields) \/ (json request = None /\ fields = []) ->
      ((exists t, _verify_plugin_token secret request = Return t) <->
       query_guard secret request = Return (VDict fields))
      /\ forall code, is_http code (_verify_plugin_token secret request) <->
                      is_http code (query_guard secret request)).
Proof.
  destruct (secret =? "")%string eqn:Hs.
  - apply String.eqb_eq in Hs. subst secret. split; intros Hj.
    + unfold _verify_plugin_token, intake_guard. rewrite Hj. cbn [String.eqb bind]. split.
      * split; [ intros [t H]; discriminate H | discriminate ].
      * intros code. unfold is_http. same_status.
    + unfold _verify_plugin_token, query_guard. cbn [String.eqb]. split.
      * split; [ intros [t H]; discriminate H | discriminate ].
      * intros code. unfold is_http. same_status.
  - split; intros Hj.
    + rewrite (verify_plugin_token_dict _ _ fields Hs (or_introl Hj)).
      rewrite (intake_guard_dict _ _ _ Hs Hj).
      destruct (token_rejected (presented_secret request fields) secret); split.
      * split; [ intros [t H]; discriminate H | discriminate ].
      * intros code. unfold is_http. same_status.
      * split; eauto.
      * intros code. unfold is_http. same_status.
    + rewrite (verify_plugin_token_dict _ _ fields Hs Hj).
      rewrite (query_guard_dict _ _ _ Hs Hj).
      destruct (token_rejected (presented_secret request fields) secret); split.
      * split; [ intros [t H]; discriminate H | discriminate ].
      * intros code. unfold is_http. same_status.
      * split; eauto.
      * intros code. unfold is_http. same_status.
Qed.

(** X11.  The status route reports [enabled] and [has_token] alike, and
    what it reports is what the guards do: [enabled] is false exactly
    when every query is refused with 503, and true exactly when some
    intake request passes the guard. *)
Theorem plugin_status_reflects_guard (secret : string) :
  st_enabled (plugin_status secret) = st_has_token (plugin_status secret)
  /\ (st_enabled (plugin_status secret) = false <->
      forall request, is_http 503 (query_guard secret request))
  /\ (st_enabled (plugin_status secret) = true <->
      exists request body, intake_guard secret request = Return body).
Proof.
  unfold plugin_status. cbn [st_enabled st_has_token]. split; [ reflexivity | ].
  destruct (secret =? "")%string eqn:Hs; cbn [negb].
  - apply String.eqb_eq in Hs. subst secret. split.
    + split; [ | reflexivity ]. intros _ request. eexists. reflexivity.
    + split; [ discriminate | ]. intros (request & body & H). exfalso.
      unfold intake_guard in H. destruct (json request); discriminate H.
  - split.
    + split; [ discriminate | ]. intros H. exfalso.
      destruct (H {| json := None; authorization := None |}) as [detail Hd].
      rewrite (query_guard_dict secret {| json := None; authorization := None |} []
                 Hs (or_intror (conj eq_refl eq_refl))) in Hd.
      destruct (token_rejected _ secret); discriminate Hd.
    + split; [ | reflexivity ]. intros _.
      exists {| json := Some (VDict []); authorization := Some ("Bearer " ++ secret) |}.
      exists (VDict []).
      rewrite (intake_guard_dict secret
                 {| json := Some (VDict []); authorization := Some ("Bearer " ++ secret) |}
                 [] Hs eq_refl).
      assert (Hacc : token_rejected
                       (presented_secret
                          {| json := Some (VDict []);
                             authorization := Some ("Bearer " ++ secret) |} []) secret
                     = false).
      { apply token_rejected_false. apply accepted_bearer; [ exact Hs | ].
        unfold bearer. cbn [authorization]. cbn. destruct secret; reflexivity. }
      rewrite Hacc. reflexivity.
Qed.

Section GuardMore.

Context {S : Type} {store : Store S} {library : Library}.

(** X12.  A query whose body does not decode is handled as the query
    with the empty object as its body; with a secret configured it can
    therefore authenticate by its header only: it passes with the bearer
    secret and fails with 401 without it. *)
Theorem undecodable_query_needs_bearer (secret : string) (request : Request) :
  json request = None ->
  (forall (clock : nat -> Z) (s : S),
      check_tokens secret clock request s =
      check_tokens secret clock
        {| json := Some (VDict []); authorization := authorization request |} s)
  /\ ((secret =? "")%string = false ->
      (bearer request = Some secret ->
       query_guard secret request = Return (VDict []))
      /\ (bearer request <> Some secret ->
          forall (clock : nat -> Z) (s : S),
            check_tokens secret clock request s =
            (Raise (HTTPException 401 "无效的连接 Token"), s))).
Proof.
  intros Hj. split.
  - intros clock s. unfold check_tokens, bindM, pure, query_guard, presented_token,
      header_authorization. rewrite Hj. reflexivity.
  - intros Hs.
    pose proof (query_guard_dict secret request [] Hs (or_intror (conj Hj eq_refl))) as Hg.
    split.
    + intros Hb. rewrite Hg.
      pose proof (accepted_bearer request [] secret Hs Hb) as Hacc.
      apply token_rejected_false in Hacc. rewrite Hacc. reflexivity.
    + intros Hb clock s. apply check_tokens_guard_raises. rewrite Hg.
      destruct (token_rejected (presented_secret request []) secret) eqn:Hr;
        [ reflexivity | exfalso ].
      apply token_rejected_false in Hr. destruct Hr as (t & Ht & Hne & <-).
      unfold presented_secret in Ht. destruct (bearer request) as [ b | ].
      * injection Ht as ->. now destruct Hb.
      * cbn in Ht. injection Ht as <-. now destruct Hne.
Qed.

End GuardMore.

(** ** The query: which files are summarised *)

Section QueryMore.

Context {S : Type} {store : Store S} {library : Library}.







End QueryMore.

(** ** The model catalogue *)



(** A model list holding a NaN is answered 500, not 200. *)
Example catalogue_with_nan (text : exn -> string) :
  match get_models_info
          (catalogue := {| get_available_models :=
                             fun _ => Return (VList [VFloat S754_nan]);
                           fetch_available_models := Return (VList []);
                           get_api_password := Return (VStr "k");
                           str_of_exception := text |})
  with
  | Return resp => status_code resp
  | Raise _ => 0
  end = 500.
Proof. reflexivity. Qed.

(** ** Pushing twice into the store in memory *)






Section PushTwice.

Context {library : Library}.








End PushTwice.

(** ** What the action says, and store failures *)

Section Outcomes.

Context {S : Type} {store : Store S} {library : Library}.

(** X19.  The action of an answered push tells what the scan found: it
    is ["updated"] only for a non-empty [project_id] and a listed
    filename whose stored record has that [project_id], which is then
    the filename returned; it is ["created"] only when the [project_id]
    is empty or no listed record has it, and the filename returned is
    then the normalizer's. *)
Theorem action_tells_the_match (secret : string) (ts : Z) (request : Request)
  (s s' : S) (resp : UpdateResponse) :
  update_token secret ts request s = (Return resp, s') ->
  exists body credential mode filename files project_id,
    intake_guard secret request = Return body
    /\ normalize ts body = Return (credential, mode, filename)
    /\ list_credentials mode s = Return files
    /\ py_get credential "project_id" (VStr "") = Return project_id
    /\ ((upd_action resp = "updated"
         /\ truthy project_id = true
         /\ In (upd_filename resp) files
         /\ stores_project mode project_id s (upd_filename resp))
        \/ (upd_action resp = "created"
            /\ upd_filename resp = filename
            /\ (truthy project_id = false
                \/ forall f, In f files -> ~ stores_project mode project_id s f))).
Proof.
  intros Hrun.
  destruct (intake_guard secret request) as [ body | e ] eqn:Hg.
  2:{ rewrite (update_token_guard_raises _ _ _ _ _ Hg) in Hrun. discriminate. }
  destruct (normalize ts body) as [ [[credential mode] filename] | e ] eqn:Hn.
  2:{ rewrite (update_token_normalize_raises _ _ _ _ _ _ Hg Hn) in Hrun. discriminate. }
  rewrite (update_token_after_normalize _ _ _ _ _ _ _ _ Hg Hn) in Hrun.
  destruct (list_credentials mode s) as [ files | ] eqn:Hfiles; [ | discriminate ].
  destruct (py_get credential "project_id" (VStr "")) as [ project_id | ] eqn:Hp;
    [ | discriminate ].
  cbv zeta in Hrun.
  exists body, credential, mode, filename, files, project_id. repeat split; trivial.
  destruct (truthy project_id) eqn:Ht.
  - destruct (scan_existing mode project_id s files) as [ ef | ] eqn:Hscan.
    + destruct (store_credential mode ef credential s) as [ [ [] | ] s1 ];
        [ | discriminate ].
      injection Hrun as <- <-. left. cbn [upd_action upd_filename].
      pose proof Hscan as Hfirst. apply scan_existing_first in Hfirst.
      destruct Hfirst as (before & after & _ & Hef & _).
      repeat split; trivial.
      * eapply scan_existing_listed; eauto.
      * now apply (same_project_iff mode project_id s ef Ht).
    + destruct (store_credential mode filename credential s) as [ [ [] | ] s1 ];
        [ | discriminate ].
      injection Hrun as <- <-. right. cbn [upd_action upd_filename].
      repeat split; trivial. right. intros f Hin Hs.
      apply (same_project_iff mode project_id s f Ht) in Hs.
      destruct (scan_existing_finds mode project_id s files f Hin Hs) as [ef Hef].
      rewrite Hscan in Hef. discriminate.
  - destruct (store_credential mode filename credential s) as [ [ [] | ] s1 ];
      [ | discriminate ].
    injection Hrun as <- <-. right. cbn [upd_action upd_filename]. auto.
Qed.

(** X20.  Only the per-record reads are guarded.  An exception of the
    listing leaves either handler as it is, with the store untouched and,
    in the intake, the writer never called; an exception of the writer
    leaves [update_token] as it is, in the store the writer left. *)
Theorem store_failures_propagate (secret : string) (request : Request) (e : exn) (s : S) :
  (forall (clock : nat -> Z) (body : value) (mode : string),
      query_guard secret request = Return body ->
      resolve_mode body = Return mode ->
      list_credentials mode s = Raise e ->
      check_tokens secret clock request s = (Raise e, s))
  /\ (forall (ts : Z) (body credential : value) (mode filename : string),
        intake_guard secret request = Return body ->
        normalize ts body = Return (credential, mode, filename) ->
        list_credentials mode s = Raise e ->
        update_token secret ts request s = (Raise e, s))
  /\ (forall (ts : Z) (body credential : value) (mode filename : string)
             (files : list string) (s' : S),
        intake_guard secret request = Return body ->
        normalize ts body = Return (credential, mode, filename) ->
        list_credentials mode s = Return files ->
        (forall f, store_credential mode f credential s = (Raise e, s')) ->
        update_token secret ts request s = (Raise e, s')).
Proof.
  repeat split.
  - intros clock body mode Hg Hm Hl.
    rewrite (check_tokens_after_guard _ _ _ _ _ Hg), Hm, Hl. reflexivity.
  - intros ts body credential mode filename Hg Hn Hl.
    rewrite (update_token_after_normalize _ _ _ _ _ _ _ _ Hg Hn), Hl. reflexivity.
  - intros ts body credential mode filename files s' Hg Hn Hl Hw.
    rewrite (update_token_after_normalize _ _ _ _ _ _ _ _ Hg Hn), Hl.
    destruct (normalize_inv _ _ _ _ _ Hn) as (_ & Hv & _).
    assert (Hd : exists d, credential = VDict d).
    { unfold validate_credential in Hv.
      destruct (truthy credential); cbn [negb] in Hv; [ | discriminate ].
      destruct credential; try discriminate Hv. eauto. }
    destruct Hd as [d ->]. rewrite py_get_dict. cbv zeta. rewrite Hw. reflexivity.
Qed.

End Outcomes.

(** ** Worked examples of the further properties *)


Lemma update_token_writes_only_when_valid_example :
  let run := update_token "S" 1700000000 (Sample.push Sample.payload_p1) Sample.store in
  snd run = Sample.store
  \/ exists body credential mode filename final,
       intake_guard "S" (Sample.push Sample.payload_p1) = Return body
       /\ normalize 1700000000 body = Return (credential, mode, filename)
       /\ (final = filename
           \/ exists files,
                list_credentials mode Sample.store = Return files /\ In final files)
       /\ snd run = snd (store_credential mode final credential Sample.store).
Proof.
  intros run.
  apply (update_token_writes_only_when_valid "S" 1700000000
           (Sample.push Sample.payload_p1) Sample.store (snd run) (fst run)).
  vm_compute. reflexivity.
Defined.

Lemma non_string_filename_unhandled_example :
  let fields := [("filename", VInt 5); ("client_id", VStr "c1");
                 ("refresh_token", VStr "r1")] in
  update_token "S" 1700000000 (Sample.push fields) Sample.store
  = (Raise AttributeError, Sample.store).
Proof.
  intros fields.
  apply (non_string_filename_unhandled "S" 1700000000 (Sample.push fields) fields
           (VDict [("client_id", VStr "c1"); ("refresh_token", VStr "r1")])
           (VInt 5) Sample.store); try reflexivity.
  intros name H. discriminate H.
Defined.

Lemma derived_filenames_differ_example :
  "work-p1-1700000000.json" <> "work-p1-1700000001.json".
Proof.
  apply (derived_filenames_differ 1700000000 1700000001
           [("name", VStr "work")] (VDict Sample.payload_p1));
    [ reflexivity | discriminate | reflexivity | reflexivity ].
Defined.

Lemma returned_filename_is_stable_example :
  resolve_filename 1700000050
    (VDict [("filename", VStr "mine.json"); ("name", VStr "other")])
    (VDict Sample.payload_p1)
  = Return "mine.json".
Proof.
  apply (returned_filename_is_stable 1700000000 1700000050
           (VDict [("filename", VStr "mine")]) (VDict []) (VDict Sample.payload_p1)
           [("filename", VStr "mine.json"); ("name", VStr "other")] "mine.json");
    reflexivity.
Defined.

Lemma body_token_is_stored_example :
  let fields := [("token", VStr "S"); ("client_id", VStr "c1");
                 ("refresh_token", VStr "r1"); ("project_id", VStr "p9")] in
  let request := {| json := Some (VDict fields); authorization := None |} in
  exists resp s',
    update_token "S" 1700000000 request Sample.store = (Return resp, s')
    /\ exists mode c,
         lookup "token" c = Some (VStr "S")
         /\ store_credential mode (upd_filename resp) (VDict c) Sample.store
            = (Return tt, s').
Proof.
  intros fields request. do 2 eexists. split; [ vm_compute; reflexivity | ].
  apply (body_token_is_stored "S" 1700000000 request fields Sample.store);
    [ reflexivity | reflexivity | exact I | vm_compute; reflexivity ].
Defined.

Lemma nested_credential_is_stored_verbatim_example :
  let nested := VDict [("client_id", VStr "c1"); ("refresh_token", VStr "r1");
                       ("note", VStr "kept")] in
  let fields := [("credential", nested); ("project_id", VStr "p1")] in
  exists resp s',
    update_token "S" 1700000000 (Sample.push fields) Sample.store = (Return resp, s')
    /\ exists mode,
         store_credential mode (upd_filename resp) nested Sample.store = (Return tt, s').
Proof.
  intros nested fields. do 2 eexists. split; [ vm_compute; reflexivity | ].
  apply (nested_credential_is_stored_verbatim "S" 1700000000 (Sample.push fields)
           fields nested Sample.store);
    [ reflexivity | reflexivity | reflexivity | vm_compute; reflexivity ].
Defined.

Lemma undecodable_query_needs_bearer_example :
  let request := {| json := None; authorization := Some "Bearer S" |} in
  (forall (clock : nat -> Z) (s : MemStore.t),
      check_tokens "S" clock request s =
      check_tokens "S" clock
        {| json := Some (VDict []); authorization := authorization request |} s)
  /\ (("S" =? "")%string = false ->
      (bearer request = Some "S" -> query_guard "S" request = Return (VDict []))
      /\ (bearer request <> Some "S" ->
          forall (clock : nat -> Z) (s : MemStore.t),
            check_tokens "S" clock request s =
            (Raise (HTTPException 401 "无效的连接 Token"), s))).
Proof.
  intros request.
  apply (undecodable_query_needs_bearer (S := MemStore.t) "S" request). reflexivity.
Defined.


(** The unreadable entry is the one left out. *)
Example listing_without_the_corrupt_entry :
  filter (summarisable "geminicli" Sample.store)
    ["absent.json"; "empty.json"; "naive.json"; "soon.json"; "again.json";
     "later.json"; "corrupt.json"]
  = ["absent.json"; "empty.json"; "naive.json"; "soon.json"; "again.json";
     "later.json"].
Proof. reflexivity. Qed.


(** A [project_id] that is not equal to itself is created again. *)
Example nan_project_is_created_again :
  let request := Sample.push [("filename", VStr "x.json");
                              ("project_id", VFloat S754_nan);
                              ("client_id", VStr "c1"); ("refresh_token", VStr "r1")] in
  let first := update_token "S" 1700000000 request MemStore.empty in
  match fst first, fst (update_token "S" 1700000050 request (snd first)) with
  | Return r1, Return r2 => (upd_action r1, upd_action r2)
  | _, _ => ("", "")
  end = ("created", "created").
Proof. reflexivity. Qed.

(** A state that holds a NaN makes the query raise when it builds its
    response. *)
Example query_with_nan_state :
  check_tokens "S" Sample.clock Sample.query
    {| MemStore.geminicli :=
         [("a.json",
           {| MemStore.credential := Return VNone;
              MemStore.state :=
                Return (VDict [("error_codes", VList [VFloat S754_nan])]) |})];
       MemStore.antigravity := [] |}
  = (Raise ValueError,
     {| MemStore.geminicli :=
          [("a.json",
            {| MemStore.credential := Return VNone;
               MemStore.state :=
                 Return (VDict [("error_codes", VList [VFloat S754_nan])]) |})];
        MemStore.antigravity := [] |}).
Proof. reflexivity. Qed.


Lemma update_token_well_named_example :
  well_named
    (snd (update_token "S" 1700000000 (Sample.push Sample.payload_p1) Sample.store)).
Proof.
  apply (update_token_well_named "S" 1700000000 (Sample.push Sample.payload_p1)
           Sample.store).
  exact sample_store_well_named.
Defined.

Lemma non_object_body_unhandled_example :
  let request := {| json := Some (VInt 5); authorization := Some "Bearer S" |} in
  (forall (ts : Z) (s : MemStore.t),
      update_token "S" ts request s = (Raise AttributeError, s))
  /\ (forall (clock : nat -> Z) (s : MemStore.t),
        check_tokens "S" clock request s = (Raise AttributeError, s)).
Proof.
  intros request.
  apply (non_object_body_unhandled (S := MemStore.t) "S" request (VInt 5));
    try reflexivity.
  intros fields H. discriminate H.
Defined.

Lemma action_tells_the_match_example :
  exists resp s',
    update_token "S" 1700000000 (Sample.push Sample.payload_p1) Sample.store
    = (Return resp, s')
    /\ upd_action resp = "updated"
    /\ exists body credential mode filename files project_id,
         intake_guard "S" (Sample.push Sample.payload_p1) = Return body
         /\ normalize 1700000000 body = Return (credential, mode, filename)
         /\ list_credentials mode Sample.store = Return files
         /\ py_get credential "project_id" (VStr "") = Return project_id
         /\ ((upd_action resp = "updated"
              /\ truthy project_id = true
              /\ In (upd_filename resp) files
              /\ stores_project mode project_id Sample.store (upd_filename resp))
             \/ (upd_action resp = "created"
                 /\ upd_filename resp = filename
                 /\ (truthy project_id = false
                     \/ forall f, In f files ->
                                  ~ stores_project mode project_id Sample.store f))).
Proof.
  do 2 eexists. split; [ vm_compute; reflexivity | ]. split; [ reflexivity | ].
  eapply (action_tells_the_match "S" 1700000000 (Sample.push Sample.payload_p1)
            Sample.store).
  vm_compute. reflexivity.
Defined.

(** A listing that fails, then a writer that fails. *)
Lemma store_failures_propagate_example :
  update_token (store := Failing.store) "S" 1700000000
    (Sample.push Sample.payload_p1) false
  = (Raise (StoreError "listing"), false)
  /\ update_token (store := Failing.store) "S" 1700000000
       (Sample.push Sample.payload_p1) true
     = (Raise (StoreError "write"), true).
Proof.
  split.
  - apply (proj1 (proj2 (store_failures_propagate (store := Failing.store) "S"
                           (Sample.push Sample.payload_p1)
                           (StoreError "listing") false))
             1700000000 (VDict Sample.payload_p1) (VDict Sample.payload_p1)
             "geminicli" "p1-1700000000.json"); reflexivity.
  - apply (proj2 (proj2 (store_failures_propagate (store := Failing.store) "S"
                           (Sample.push Sample.payload_p1)
                           (StoreError "write") true))
             1700000000 (VDict Sample.payload_p1) (VDict Sample.payload_p1)
             "geminicli" "p1-1700000000.json" [] true); reflexivity.
Defined.
